(** * BentoML serving topology: [bentoml.serve] and the API-server worker

    A shallow embedding of [src/bentoml/serve.py] ([ensure_prometheus_dir],
    [serve_development], [serve_production]) and of the [main] entry point of
    [src/bentoml_cli/server/http_api_server.py].

    Python values are modelled as follows.
    - [str] is [string], one character per element; [len] is
      [String.length]; [int] is [Z].
    - [Optional[T]] is [option T]; [None] is [None].
    - a [dict] is an insertion-ordered association list ([dict_set] keeps the
      position of a key that is already present, as CPython does).
    - exceptions are the type [exn]; a computation is a function from the
      [World] to a [result] and the next [World] (the world is kept when an
      exception is raised, as side effects are in Python).
    - everything the functions read from outside (platform, path flavour,
      temporary-file names, the port the OS hands out, CPU count, how the
      supervisor ends, library helpers that are not part of these two
      files) is a field of [Env]; [fs_fault] says which file-system calls
      the OS refuses, [tempfile.mkdtemp] included. *)

From Stdlib Require Import List String Ascii ZArith QArith Qround Bool Lia.
From Stdlib Require Import DecimalString.
Import ListNotations.

Local Open Scope string_scope.
Local Open Scope Z_scope.
Local Open Scope list_scope.

(** ** Python strings and dictionaries *)

(** [str(n)] for an [int]. *)
Definition str_of_Z (n : Z) : string := NilZero.string_of_int (Z.to_int n).

(** [len(s)] as an [int]. *)
Definition len (s : string) : Z := Z.of_nat (String.length s).

Definition starts_with_slash (s : string) : bool :=
  match s with
  | String c _ => Ascii.eqb c "/"%char
  | EmptyString => false
  end.

Fixpoint ends_with_slash (s : string) : bool :=
  match s with
  | EmptyString => false
  | String c EmptyString => Ascii.eqb c "/"%char
  | String _ rest => ends_with_slash rest
  end.

(** [os.path.join(a, b)] on POSIX, for two components. *)
Definition os_path_join (a b : string) : string :=
  if starts_with_slash b then b
  else if orb (String.eqb a EmptyString) (ends_with_slash a) then a ++ b
  else a ++ "/" ++ b.

(** [str(PurePosixPath(p))] and [str(Path(p).absolute())] on POSIX, after
    pathlib: the path is cut at the slashes, empty components and [.] are
    dropped, [..] is kept; one leading slash is the root, two are kept as
    they are, three or more count as one; a relative path is put after the
    working directory. *)
Definition keep_component (c : string) (cs : list string) : list string :=
  if orb (String.eqb c EmptyString) (String.eqb c ".") then cs else c :: cs.

Fixpoint path_components (s cur : string) : list string :=
  match s with
  | EmptyString => keep_component cur []
  | String c rest =>
      if Ascii.eqb c "/"%char
      then keep_component cur (path_components rest EmptyString)
      else path_components rest (cur ++ String c EmptyString)
  end.

Fixpoint leading_slashes (s : string) : nat :=
  match s with
  | String c rest => if Ascii.eqb c "/"%char then S (leading_slashes rest) else O
  | EmptyString => O
  end.

Definition path_root (s : string) : string :=
  match leading_slashes s with
  | O => EmptyString
  | 2%nat => "//"
  | _ => "/"
  end.

Fixpoint join_slash (cs : list string) : string :=
  match cs with
  | [] => EmptyString
  | [ c ] => c
  | c :: rest => c ++ "/" ++ join_slash rest
  end.

Definition render_path (root : string) (cs : list string) : string :=
  match root, cs with
  | EmptyString, [] => "."
  | _, _ => root ++ join_slash cs
  end.

Definition posix_absolute (cwd p : string) : string :=
  match path_root p with
  | EmptyString =>
      render_path (path_root cwd)
        (path_components cwd EmptyString ++ path_components p EmptyString)
  | root => render_path root (path_components p EmptyString)
  end.

Definition dict (V : Type) : Type := list (string * V).

Fixpoint dict_get {V : Type} (k : string) (d : dict V) : option V :=
  match d with
  | [] => None
  | (k', v) :: d' => if String.eqb k k' then Some v else dict_get k d'
  end.

(** [d[k] = v]: an existing key keeps its position, a new one goes last. *)
Fixpoint dict_set {V : Type} (k : string) (v : V) (d : dict V) : dict V :=
  match d with
  | [] => [(k, v)]
  | (k', v') :: d' =>
      if String.eqb k k' then (k, v) :: d' else (k', v') :: dict_set k v d'
  end.

(** [del d[k]]. *)
Fixpoint dict_del {V : Type} (k : string) (d : dict V) : dict V :=
  match d with
  | [] => []
  | (k', v') :: d' =>
      if String.eqb k k' then dict_del k d' else (k', v') :: dict_del k d'
  end.

Definition dict_keys {V : Type} (d : dict V) : list string := map fst d.
Definition dict_values {V : Type} (d : dict V) : list V := map snd d.

Definition mem_str (k : string) (ks : list string) : bool :=
  existsb (String.eqb k) ks.

(** ** Exceptions and the effect monad *)

(** The subclasses of [OSError] that the standard library raises from
    [Path.iterdir], [Path.mkdir] and [shutil.rmtree]; [ShutilError] is
    [shutil.Error], itself a subclass of [OSError]. *)
Inductive os_error : Type :=
  | PermissionError
  | FileExistsError
  | FileNotFoundError
  | NotADirectoryError
  | IOError
  | ShutilError.

Inductive exn : Type :=
  | OSError (k : os_error)
  | AssertionError
  | RuntimeError (msg : string)
  | NotImplementedError (msg : string)
  | ValueError (msg : string)
  | KeyboardInterrupt
  | OtherError (msg : string).

Inductive result (A : Type) : Type :=
  | Ok (a : A)
  | Raise (e : exn).
Arguments Ok {A} a.
Arguments Raise {A} e.

(** ** Supervisor objects (circus) *)

(** [circus.sockets.CircusSocket(name, host, port, path, backlog)]. *)
Inductive transport : Type :=
  | Tcp (host : string) (port : Z)
  | UnixPath (path : string).

Record CircusSocket : Type := mkCircusSocket {
  sock_name : string;
  sock_transport : transport;
  sock_backlog : Z
}.

(** [circus.watcher.Watcher]; only the keyword arguments these files pass. *)
Record Watcher : Type := mkWatcher {
  w_name : string;
  w_cmd : string;
  w_args : list string;
  w_copy_env : bool;
  w_numprocesses : Z;
  w_stop_children : bool;
  w_use_sockets : bool;
  w_working_dir : string;
  w_close_child_stdin : bool
}.

(** Defaults of the [Watcher] constructor for the keywords a call leaves out
    (circus: [numprocesses=1], [close_child_stdin=True]). *)
Definition Watcher_default_numprocesses : Z := 1.
Definition Watcher_default_close_child_stdin : bool := true.

(** A plugin description passed to the supervisor (the reloader). *)
Record Plugin : Type := mkPlugin {
  plugin_use : string;
  plugin_working_dir : string;
  plugin_bentoml_home : string
}.

(** What [create_standalone_arbiter(watchers, sockets=..., plugins=...)] is
    given: the process specifications and the socket specifications. *)
Record Arbiter : Type := mkArbiter {
  arb_watchers : list Watcher;
  arb_sockets : list CircusSocket;
  arb_plugins : list Plugin
}.

(** Values stored in the option dictionary given to [uvicorn.Config]. *)
Inductive pyval : Type :=
  | PyNone
  | PyInt (n : Z)
  | PyStr (s : string).

(** ** The world *)

Inductive node : Type :=
  | File
  | Dir (entries : list string).

Inductive event : Type :=
  | EvMkdtemp (path : string)
  | EvRmtree (path : string)
  | EvMkdir (path : string)
  | EvWarning (directory alternative : string)
  | EvReservePort (port : Z)
  | EvReleasePort (port : Z)
  | EvArbiterStart (arbiter : Arbiter)
  | EvSetEventLoopPolicy
  | EvSocketFromFileno (fd : Z)
  | EvUvicornRun (options : dict pyval) (fd : Z).

Record World : Type := mkWorld {
  fs : dict node;                      (* the file system, keyed by path *)
  ports_in_use : list Z;               (* loopback ports currently bound *)
  prometheus_multiproc_dir : string;   (* BentoMLContainer.prometheus_multiproc_dir *)
  trace : list event                   (* effects so far, oldest first *)
}.

Definition M (A : Type) : Type := World -> result A * World.

Definition ret {A : Type} (a : A) : M A := fun w => (Ok a, w).
Definition raise {A : Type} (e : exn) : M A := fun w => (Raise e, w).
Definition bind {A B : Type} (m : M A) (f : A -> M B) : M B :=
  fun w =>
    match m w with
    | (Ok a, w') => f a w'
    | (Raise e, w') => (Raise e, w')
    end.

Notation "x <- c1 ;; c2" := (bind c1 (fun x => c2))
  (at level 61, c1 at next level, right associativity).
Notation "c1 ;;; c2" := (bind c1 (fun _ => c2))
  (at level 61, right associativity).

(** [try: body finally: fin]. The finaliser runs on both outcomes; an
    exception of the finaliser replaces the outcome of the body. *)
Definition try_finally {A : Type} (body : M A) (fin : M unit) : M A :=
  fun w =>
    match body w with
    | (r, w') =>
        match fin w' with
        | (Ok _, w'') => (r, w'')
        | (Raise e, w'') => (Raise e, w'')
        end
    end.

Definition emit (e : event) : M unit :=
  fun w => (Ok tt, mkWorld (fs w) (ports_in_use w)
                     (prometheus_multiproc_dir w) (trace w ++ [e])).

Definition set_fs (f : dict node) : M unit :=
  fun w => (Ok tt, mkWorld f (ports_in_use w)
                     (prometheus_multiproc_dir w) (trace w)).

Definition set_ports (ps : list Z) : M unit :=
  fun w => (Ok tt, mkWorld (fs w) ps (prometheus_multiproc_dir w) (trace w)).

Definition set_prometheus_multiproc_dir (d : string) : M unit :=
  fun w => (Ok tt, mkWorld (fs w) (ports_in_use w) d (trace w)).

Definition get_world : M World := fun w => (Ok w, w).

(** ** The environment *)

Inductive Platform : Type :=
  | POSIX      (* psutil.POSIX *)
  | WINDOWS    (* psutil.WINDOWS *)
  | OtherOS.

Inductive fs_op : Type := OpIterdir | OpRmtree | OpMkdir | OpMkdtemp.

Record Runner : Type := mkRunner {
  runner_id : Z;                  (* id(runner) *)
  name : string;                  (* runner.name *)
  scheduled_worker_count : Z      (* runner.scheduled_worker_count *)
}.

Record Service : Type := mkService {
  runners : list Runner           (* svc.runners *)
}.

Record Env : Type := mkEnv {
  platform : Platform;
  sys_platform : string;                        (* sys.platform *)
  sys_executable : string;                      (* sys.executable *)
  pathlib_absolute : string -> string;          (* str(Path(p).absolute()); on POSIX [posix_absolute cwd] *)
  realpath_expanduser : string -> string;       (* os.path.realpath(os.path.expanduser(p)) *)
  fs_fault : fs_op -> string -> option os_error; (* a file-system call that the OS refuses *)
  mkdtemp_name : dict node -> string;           (* the directory tempfile.mkdtemp() creates *)
  free_port : list Z -> Z;                      (* the port bind(host, 0) obtains *)
  cpu_from_system : Q;                          (* CpuResource.from_system() *)
  arbiter_outcome : option exn;                 (* how arbiter.start ends *)
  path_to_uri : string -> string;               (* bentoml._internal.utils.uri.path_to_uri *)
  json_dumps : dict string -> string            (* json.dumps of a str -> str dict *)
}.


Definition mkdtemp_fresh (env : Env) : Prop :=
  forall f, pathlib_absolute env (mkdtemp_name env f) = mkdtemp_name env f /\
            dict_get (mkdtemp_name env f) f = None.

(** [tempfile.mkdtemp] is never refused. *)
Definition mkdtemp_allowed (env : Env) : Prop :=
  forall p, fs_fault env OpMkdtemp p = None.

Definition free_port_fresh (env : Env) : Prop :=
  forall used, ~ In (free_port env used) used.

Section Serve.

Variable env : Env.

(** *** File-system calls *)

(** [str(path.absolute())] for [path = Path(p)], in the path flavour of
    the platform. *)
Definition absolute (p : string) : string := pathlib_absolute env p.

(** [path.exists()]. *)
Definition path_exists (p : string) : M bool :=
  fun w => (Ok (match dict_get (absolute p) (fs w) with
                | Some _ => true | None => false end), w).

(** [path.is_dir()]. *)
Definition path_is_dir (p : string) : M bool :=
  fun w => (Ok (match dict_get (absolute p) (fs w) with
                | Some (Dir _) => true | _ => false end), w).

(** [any(path.iterdir())]. *)
Definition any_iterdir (p : string) : M bool :=
  fun w =>
    match fs_fault env OpIterdir (absolute p) with
    | Some k => (Raise (OSError k), w)
    | None =>
        match dict_get (absolute p) (fs w) with
        | Some (Dir []) => (Ok false, w)
        | Some (Dir (_ :: _)) => (Ok true, w)
        | Some File => (Raise (OSError NotADirectoryError), w)
        | None => (Raise (OSError FileNotFoundError), w)
        end
    end.

(** [shutil.rmtree(p)]: removes a directory with everything below it; a
    path that is not a directory is refused. *)
Definition rmtree (p : string) : M unit :=
  fun w =>
    match fs_fault env OpRmtree (absolute p) with
    | Some k => (Raise (OSError k), w)
    | None =>
        match dict_get (absolute p) (fs w) with
        | Some (Dir _) =>
            (set_fs (dict_del (absolute p) (fs w)) ;;; emit (EvRmtree (absolute p))) w
        | Some File => (Raise (OSError NotADirectoryError), w)
        | None => (Raise (OSError FileNotFoundError), w)
        end
    end.

(** [path.mkdir()] and [path.mkdir(parents=True)]: both refuse an existing
    path; missing parents are not tracked by the model. *)
Definition mkdir (p : string) : M unit :=
  fun w =>
    match fs_fault env OpMkdir (absolute p) with
    | Some k => (Raise (OSError k), w)
    | None =>
        match dict_get (absolute p) (fs w) with
        | Some _ => (Raise (OSError FileExistsError), w)
        | None =>
            (set_fs (dict_set (absolute p) (Dir []) (fs w)) ;;; emit (EvMkdir (absolute p))) w
        end
    end.

(** [tempfile.mkdtemp()]: creates a new, empty directory and returns its
    absolute path, or raises the [OSError] with which the OS refuses it.
    That the name is new and absolute is the assumption [mkdtemp_fresh]. *)
Definition mkdtemp : M string :=
  fun w =>
    let p := mkdtemp_name env (fs w) in
    match fs_fault env OpMkdtemp p with
    | Some k => (Raise (OSError k), w)
    | None =>
        (set_fs (dict_set p (Dir []) (fs w)) ;;; emit (EvMkdtemp p) ;;; ret p) w
    end.

(** *** [ensure_prometheus_dir] (serve.py, lines 35-75) *)

(** The body of the [try] block, lines 42-57. *)
Definition ensure_prometheus_dir_try (directory : string) (clean : bool) : M string :=
  ex <- path_exists directory ;;
  if ex : bool then
    isd <- path_is_dir directory ;;
    nonempty <- (if negb isd then ret true else any_iterdir directory) ;;
    if nonempty : bool then
      if clean then
        rmtree directory ;;;
        mkdir directory ;;;
        ret (absolute directory)
      else
        raise (RuntimeError "Prometheus multiproc directory is not empty")
    else
      ret (absolute directory)
  else
    mkdir directory ;;;
    ret (absolute directory).

Definition ensure_prometheus_dir_with
    (directory : string) (clean use_alternative : bool) : M string :=
  fun w =>
    match ensure_prometheus_dir_try directory clean w with
    | (Ok p, w') => (Ok p, w')
    | (Raise (OSError k), w') =>
        if negb use_alternative then
          (Raise (RuntimeError
             (match k with
              | ShutilError => "Failed to clean the prometheus multiproc directory"
              | _ => "Failed to create the prometheus multiproc directory"
              end)), w')
        else
          (alternative <- mkdtemp ;;
           emit (EvWarning directory alternative) ;;;
           set_prometheus_multiproc_dir alternative ;;;
           ret alternative) w'
    | (Raise e, w') => (Raise e, w')
    end.

(** The call with all defaults: [directory] is the container's current
    value, [clean=True], [use_alternative=True]. *)
Definition ensure_prometheus_dir : M string :=
  fun w => ensure_prometheus_dir_with (prometheus_multiproc_dir w) true true w.

(** *** Arguments shared by the two serve functions *)

Record SSL : Type := mkSSL {
  ssl_keyfile : option string;
  ssl_certfile : option string;
  ssl_keyfile_password : option string;
  ssl_version : option Z;
  ssl_cert_reqs : option Z;
  ssl_ca_certs : option string;
  ssl_ciphers : option string
}.

Record ServeArgs : Type := mkServeArgs {
  bento_identifier : string;
  working_dir : string;
  port : Z;
  host : string;
  backlog : Z;
  bentoml_home : string;          (* serve_development only *)
  reload : bool;                  (* serve_development only *)
  api_workers : option Z;         (* serve_production only *)
  ssl : SSL
}.

Definition SCRIPT_RUNNER : string := "bentoml_cli.server.runner".
Definition SCRIPT_API_SERVER : string := "bentoml_cli.server.http_api_server".
Definition SCRIPT_DEV_API_SERVER : string := "bentoml_cli.server.http_dev_api_server".
Definition API_SERVER_NAME : string := "_bento_api_server".

(** [args.extend([flag, value]) if value is not None else None]. *)
Definition extend_if_not_None
    (args : list string) (flag : string) (value : option string) : list string :=
  match value with
  | Some v => args ++ [flag; v]
  | None => args
  end.

(** "Add optional SSL args if they exist" (lines 140-161 and 372-393). *)
Definition add_ssl_args (args : list string) (s : SSL) : list string :=
  let args := extend_if_not_None args "--ssl-keyfile" (ssl_keyfile s) in
  let args := extend_if_not_None args "--ssl-certfile" (ssl_certfile s) in
  let args := extend_if_not_None args "--ssl-keyfile-password" (ssl_keyfile_password s) in
  let args := extend_if_not_None args "--ssl-version" (option_map str_of_Z (ssl_version s)) in
  let args := extend_if_not_None args "--ssl-cert-reqs" (option_map str_of_Z (ssl_cert_reqs s)) in
  let args := extend_if_not_None args "--ssl-ca-certs" (ssl_ca_certs s) in
  extend_if_not_None args "--ssl-ciphers" (ssl_ciphers s).

(** [arbiter.start(cb=...)]: blocks until the supervisor ends. *)
Definition arbiter_start (a : Arbiter) : M unit :=
  emit (EvArbiterStart a) ;;;
  match arbiter_outcome env with
  | None => ret tt
  | Some e => raise e
  end.

(** *** [serve_development] (serve.py, lines 78-212) *)

Definition dev_api_server_watcher_args
    (a : ServeArgs) (working_dir prometheus_dir : string) : list string :=
  add_ssl_args
    [ "-m"; SCRIPT_DEV_API_SERVER; bento_identifier a;
      "--bind"; "fd://$(circus.sockets._bento_api_server)";
      "--working-dir"; working_dir;
      "--prometheus-dir"; prometheus_dir ]
    (ssl a).

(** Lines 109-204: everything up to the arbiter. *)
Definition plan_development (a : ServeArgs) (svc : Service) : M Arbiter :=
  let working_dir := realpath_expanduser env (working_dir a) in
  prometheus_dir <- ensure_prometheus_dir ;;
  let watchers : list Watcher := [] in
  let circus_sockets : list CircusSocket := [] in
  let circus_sockets :=
    circus_sockets ++
      [ mkCircusSocket API_SERVER_NAME (Tcp (host a) (port a)) (backlog a) ] in
  let api_server_watcher_args :=
    dev_api_server_watcher_args a working_dir prometheus_dir in
  let watchers :=
    watchers ++
      [ {| w_name := "dev_api_server";
           w_cmd := sys_executable env;
           w_args := api_server_watcher_args;
           w_copy_env := true;
           w_numprocesses := Watcher_default_numprocesses;
           w_stop_children := true;
           w_use_sockets := true;
           w_working_dir := working_dir;
           w_close_child_stdin := false |} ] in
  let plugins :=
    if reload a then
      [ {| plugin_use :=
             "bentoml._internal.utils.circus.watchfilesplugin.ServiceReloaderPlugin";
           plugin_working_dir := working_dir;
           plugin_bentoml_home := bentoml_home a |} ]
    else [] in
  ret (mkArbiter watchers circus_sockets plugins).

Definition serve_development (a : ServeArgs) (svc : Service) : M unit :=
  arbiter <- plan_development a svc ;;
  arbiter_start arbiter.

(** *** [serve_production] (serve.py, lines 215-423) *)

Definition MAX_AF_UNIX_PATH_LENGTH : Z := 103.

(** The local variables the two runner loops update. *)
Record PlanState : Type := mkPlanState {
  watchers : list Watcher;
  circus_socket_map : dict CircusSocket;
  runner_bind_map : dict string
}.

Definition empty_plan_state : PlanState := mkPlanState [] [] [].

Definition runner_watcher
    (a : ServeArgs) (working_dir : string) (runner : Runner)
    (extra : list string) (wid : string) : Watcher :=
  {| w_name := ("runner_" ++ name runner)%string;
     w_cmd := sys_executable env;
     w_args :=
       [ "-m"; SCRIPT_RUNNER; bento_identifier a;
         "--runner-name"; name runner;
         "--bind"; ("fd://$(circus.sockets." ++ name runner ++ ")")%string;
         "--working-dir"; working_dir ] ++ extra ++ [ "--worker-id"; wid ];
     w_copy_env := true;
     w_numprocesses := scheduled_worker_count runner;
     w_stop_children := true;
     w_use_sockets := true;
     w_working_dir := working_dir;
     w_close_child_stdin := Watcher_default_close_child_stdin |}.

(** [os.path.join(uds_path, f"{id(runner)}.sock")]. *)
Definition sockets_path_of (uds_path : string) (runner : Runner) : string :=
  os_path_join uds_path (str_of_Z (runner_id runner) ++ ".sock").

(** The [for] loop of the POSIX branch (lines 264-298). It touches nothing
    outside its local variables, so it is a pure function that may raise. *)
Fixpoint posix_runner_loop
    (a : ServeArgs) (working_dir uds_path : string)
    (rs : list Runner) (st : PlanState) : result PlanState :=
  match rs with
  | [] => Ok st
  | runner :: rest =>
      let sockets_path := sockets_path_of uds_path runner in
      if len sockets_path <? MAX_AF_UNIX_PATH_LENGTH then
        posix_runner_loop a working_dir uds_path rest
          {| runner_bind_map :=
               dict_set (name runner) (path_to_uri env sockets_path)
                 (runner_bind_map st);
             circus_socket_map :=
               dict_set (name runner)
                 (mkCircusSocket (name runner) (UnixPath sockets_path) (backlog a))
                 (circus_socket_map st);
             watchers :=
               watchers st ++
                 [ runner_watcher a working_dir runner [] "$(CIRCUS.WID)" ] |}
      else Raise AssertionError
  end.

Definition lift_result {A : Type} (r : result A) : M A := fun w => (r, w).

(** [port_stack.enter_context(reserve_free_port())]: binds a socket to port
    0 on the loopback interface and keeps it bound until the stack closes. *)
Definition reserve_free_port_enter : M Z :=
  fun w =>
    let p := free_port env (ports_in_use w) in
    (set_ports (p :: ports_in_use w) ;;; emit (EvReservePort p) ;;; ret p) w.

Definition reserve_free_port_exit (p : Z) : M unit :=
  fun w =>
    (set_ports (List.remove Z.eq_dec p (ports_in_use w)) ;;;
     emit (EvReleasePort p)) w.

(** Leaving [with contextlib.ExitStack() as port_stack]: the contexts are
    left in the reverse of the order in which they were entered. The stack
    is kept newest first. *)
Fixpoint exit_stack_close (port_stack : list Z) : M unit :=
  match port_stack with
  | [] => ret tt
  | p :: older => reserve_free_port_exit p ;;; exit_stack_close older
  end.

(** The [for] loop of the Windows branch (lines 303-339). *)
Fixpoint windows_runner_loop
    (a : ServeArgs) (working_dir : string)
    (rs : list Runner) (port_stack : list Z) (st : PlanState)
    : M (list Z * PlanState) :=
  match rs with
  | [] => ret (port_stack, st)
  | runner :: rest =>
      runner_port <- reserve_free_port_enter ;;
      let runner_host := "127.0.0.1" in
      windows_runner_loop a working_dir rest (runner_port :: port_stack)
        {| runner_bind_map :=
             dict_set (name runner)
               ("tcp://" ++ runner_host ++ ":" ++ str_of_Z runner_port)%string
               (runner_bind_map st);
           circus_socket_map :=
             dict_set (name runner)
               (mkCircusSocket (name runner) (Tcp runner_host runner_port) (backlog a))
               (circus_socket_map st);
           watchers :=
             watchers st ++
               [ runner_watcher a working_dir runner
                   [ "--no-access-log" ] "$(circus.wid)" ] |}
  end.

(** Lines 261-344: the platform switch. Returns [uds_path] and the loop's
    variables. Nothing in the Windows [with] block can raise in this model,
    so the stack is closed once, at the end of the block. *)
Definition allocate_runner_sockets
    (a : ServeArgs) (working_dir : string) (svc : Service)
    : M (option string * PlanState) :=
  match platform env with
  | POSIX =>
      uds_path <- mkdtemp ;;
      st <- lift_result
              (posix_runner_loop a working_dir uds_path (runners svc)
                 empty_plan_state) ;;
      ret (Some uds_path, st)
  | WINDOWS =>
      r <- windows_runner_loop a working_dir (runners svc) [] empty_plan_state ;;
      extra <- reserve_free_port_enter ;;
      exit_stack_close (extra :: fst r) ;;;
      ret (None, snd r)
  | OtherOS =>
      raise (NotImplementedError
               ("Unsupported platform: " ++ sys_platform env)%string)
  end.

(** [api_workers or math.ceil(CpuResource.from_system())]. *)
Definition api_numprocesses (a : ServeArgs) : Z :=
  match api_workers a with
  | Some n => if n =? 0 then Qceiling (cpu_from_system env) else n
  | None => Qceiling (cpu_from_system env)
  end.

Definition api_server_watcher_args
    (a : ServeArgs) (working_dir prometheus_dir : string)
    (bind_map : dict string) : list string :=
  add_ssl_args
    [ "-m"; SCRIPT_API_SERVER; bento_identifier a;
      "--bind"; "fd://$(circus.sockets._bento_api_server)";
      "--runner-map"; json_dumps env bind_map;
      "--working-dir"; working_dir;
      "--backlog"; str_of_Z (backlog a);
      "--worker-id"; "$(CIRCUS.WID)";
      "--prometheus-dir"; prometheus_dir ]
    (ssl a).

Record Plan : Type := mkPlan {
  plan_arbiter : Arbiter;
  plan_uds_path : option string;
  plan_runner_bind_map : dict string
}.

(** Lines 248-411: everything up to the arbiter. *)
Definition plan_production (a : ServeArgs) (svc : Service) : M Plan :=
  let working_dir := realpath_expanduser env (working_dir a) in
  prometheus_dir <- ensure_prometheus_dir ;;
  r <- allocate_runner_sockets a working_dir svc ;;
  let uds_path := fst r in
  let st := snd r in
  let circus_socket_map :=
    dict_set API_SERVER_NAME
      (mkCircusSocket API_SERVER_NAME (Tcp (host a) (port a)) (backlog a))
      (circus_socket_map st) in
  let api_server_watcher_args :=
    api_server_watcher_args a working_dir prometheus_dir (runner_bind_map st) in
  let watchers :=
    watchers st ++
      [ {| w_name := "api_server";
           w_cmd := sys_executable env;
           w_args := api_server_watcher_args;
           w_copy_env := true;
           w_numprocesses := api_numprocesses a;
           w_stop_children := true;
           w_use_sockets := true;
           w_working_dir := working_dir;
           w_close_child_stdin := Watcher_default_close_child_stdin |} ] in
  ret {| plan_arbiter := mkArbiter watchers (dict_values circus_socket_map) [];
         plan_uds_path := uds_path;
         plan_runner_bind_map := runner_bind_map st |}.

(** Lines 413-423: [try: arbiter.start(...) finally: rmtree(uds_path)]. *)
Definition serve_production (a : ServeArgs) (svc : Service) : M unit :=
  plan <- plan_production a svc ;;
  try_finally
    (arbiter_start (plan_arbiter plan))
    (match plan_uds_path plan with
     | Some uds_path => rmtree uds_path
     | None => ret tt
     end).

End Serve.

(** ** [bentoml_cli.server.http_api_server.main] *)

Module HttpApiServer.

(** The parameters click hands to [main]. *)
Record MainParams : Type := mkMainParams {
  bento_identifier : string;
  bind_uri : string;                   (* --bind *)
  runner_map : option string;
  backlog : Z;
  working_dir : option string;
  worker_id : option Z;
  prometheus_dir : option string;
  ssl : SSL
}.

(** [urllib.parse.urlparse(bind)]: the two attributes [main] reads. *)
Record ParseResult : Type := mkParseResult {
  scheme : string;
  netloc : string
}.

(** Library functions [main] calls that are not part of this file. *)
Record Lib : Type := mkLib {
  urlparse : string -> ParseResult;
  py_int : string -> option Z;                     (* int(s); None is ValueError *)
  json_loads : string -> option (dict string);     (* json.loads(s); None is ValueError *)
  create_circus_socket_from_uri : string -> string -> result CircusSocket;
  unparse_click_params : MainParams -> string -> list string
}.

Section Main.

Variable env : Env.
Variable lib : Lib.

(** [if value: options[key] = value] for a string option. *)
Definition set_if_truthy_str
    (options : dict pyval) (key : string) (value : option string) : dict pyval :=
  match value with
  | Some v => if String.eqb v EmptyString then options else dict_set key (PyStr v) options
  | None => options
  end.

(** [if value: options[key] = value] for an integer option. *)
Definition set_if_truthy_int
    (options : dict pyval) (key : string) (value : option Z) : dict pyval :=
  match value with
  | Some n => if n =? 0 then options else dict_set key (PyInt n) options
  | None => options
  end.

(** Lines 174-193. *)
Definition uvicorn_options_of (backlog : Z) (s : SSL) : dict pyval :=
  let uvicorn_options :=
    [ ("backlog", PyInt backlog); ("log_config", PyNone); ("workers", PyInt 1) ] in
  let uvicorn_options := set_if_truthy_str uvicorn_options "ssl_keyfile" (ssl_keyfile s) in
  let uvicorn_options := set_if_truthy_str uvicorn_options "ssl_certfile" (ssl_certfile s) in
  let uvicorn_options :=
    set_if_truthy_str uvicorn_options "ssl_keyfile_password" (ssl_keyfile_password s) in
  let uvicorn_options := set_if_truthy_int uvicorn_options "ssl_version" (ssl_version s) in
  let uvicorn_options := set_if_truthy_int uvicorn_options "ssl_cert_reqs" (ssl_cert_reqs s) in
  let uvicorn_options := set_if_truthy_str uvicorn_options "ssl_ca_certs" (ssl_ca_certs s) in
  set_if_truthy_str uvicorn_options "ssl_ciphers" (ssl_ciphers s).

(** Lines 129-157: no worker id, start a supervisor around one worker. *)
Definition main_standalone (p : MainParams) : M unit :=
  ensure_prometheus_dir env ;;;
  circus_socket <-
    lift_result (create_circus_socket_from_uri lib (bind_uri p) API_SERVER_NAME) ;;
  let params :=
    {| bento_identifier := bento_identifier p;
       bind_uri := "fd://$(circus.sockets._bento_api_server)";
       runner_map := runner_map p;
       backlog := backlog p;
       working_dir := working_dir p;
       worker_id := worker_id p;
       prometheus_dir := prometheus_dir p;
       ssl := ssl p |} in
  let watcher :=
    {| w_name := "bento_api_server";
       w_cmd := sys_executable env;
       w_args :=
         [ "-m"; "bentoml_cli.server.http_api_server" ] ++
         unparse_click_params lib params "$(circus.wid)";
       w_copy_env := true;
       w_numprocesses := 1;
       w_stop_children := true;
       w_use_sockets := true;
       w_working_dir := match working_dir p with Some d => d | None => EmptyString end;
       w_close_child_stdin := Watcher_default_close_child_stdin |} in
  arbiter_start env (mkArbiter [ watcher ] [ circus_socket ] []).

(** Lines 159-209: a worker id is given, serve on the inherited socket. The
    component context and the runner mapping are container settings that no
    later line of [main] reads; only the failure of [json.loads] is kept. *)
Definition main_worker (p : MainParams) (wid : Z) : M unit :=
  match runner_map p with
   | Some m =>
       match json_loads lib m with
       | Some _ => ret tt
       | None => raise (ValueError "runner_map")
       end
   | None => ret tt
   end ;;;
  let parsed := urlparse lib (bind_uri p) in
  let uvicorn_options := uvicorn_options_of (backlog p) (ssl p) in
  uvicorn_options <-
    match platform env with
    | WINDOWS =>
        emit EvSetEventLoopPolicy ;;;
        ret (dict_set "loop" (PyStr "asyncio") uvicorn_options)
    | _ => ret uvicorn_options
    end ;;
  if String.eqb (scheme parsed) "fd" then
    match py_int lib (netloc parsed) with
    | Some fd =>
        emit (EvSocketFromFileno fd) ;;;
        emit (EvUvicornRun uvicorn_options fd)
    | None => raise (ValueError "invalid literal for int()")
    end
  else raise AssertionError.

Definition main (p : MainParams) : M unit :=
  match prometheus_dir p with
   | Some d => set_prometheus_multiproc_dir d
   | None => ret tt
   end ;;;
  match worker_id p with
  | None => main_standalone p
  | Some wid => main_worker p wid
  end.

End Main.

End HttpApiServer.

(** ** A concrete environment, for running the model *)

Module Demo.

Fixpoint repeat_a (n : nat) : string :=
  match n with
  | O => EmptyString
  | S n' => String "a"%char (repeat_a n')
  end.

Definition longest_key (f : dict node) : nat :=
  fold_right (fun kv acc => Nat.max (String.length (fst kv)) acc) 0%nat f.

(** A directory name under [base] that is longer than every existing path. *)
Definition mkdtemp_under (base : string) (f : dict node) : string :=
  base ++ repeat_a (S (longest_key f)).

(** One more than every port in use, and at least 49152. *)
Definition next_port (used : list Z) : Z :=
  1 + fold_right Z.max 49151 used.

Definition no_fault : fs_op -> string -> option os_error := fun _ _ => None.

(** [shutil.rmtree] is refused on [path] with a permission error. *)
Definition rmtree_denied (path : string) : fs_op -> string -> option os_error :=
  fun op p =>
    match op with
    | OpRmtree => if String.eqb p path then Some PermissionError else None
    | _ => None
    end.

Definition quoted (s : string) : string :=
  String (ascii_of_nat 34) (s ++ String (ascii_of_nat 34) EmptyString).

(** A stand-in for [WindowsPath.absolute]: a path with a drive letter or a
    root is kept as it is written, any other is put under [C:\srv]. *)
Definition has_drive (p : string) : bool :=
  match p with
  | String _ (String c _) => Ascii.eqb c ":"%char
  | _ => false
  end.

Definition starts_with_backslash (p : string) : bool :=
  match p with
  | String c _ => Ascii.eqb c "\"%char
  | EmptyString => false
  end.

Definition windows_absolute (p : string) : string :=
  if (has_drive p || starts_with_slash p || starts_with_backslash p)%bool
  then p else "C:\srv\" ++ p.

Definition env_of
    (pf : Platform) (tmp_base : string)
    (fault : fs_op -> string -> option os_error)
    (outcome : option exn) : Env :=
  {| platform := pf;
     sys_platform := match pf with POSIX => "linux" | WINDOWS => "win32" | OtherOS => "java" end;
     sys_executable := "/usr/bin/python3";
     pathlib_absolute :=
       match pf with
       | WINDOWS => windows_absolute
       | _ => posix_absolute "/srv"
       end;
     realpath_expanduser := fun p => p;
     fs_fault := fault;
     mkdtemp_name := mkdtemp_under tmp_base;
     free_port := next_port;
     cpu_from_system := 7 # 2;
     arbiter_outcome := outcome;
     path_to_uri := fun p => ("file://" ++ p)%string;
     json_dumps := fun d =>
       ("{" ++ concat ", "
                 (map (fun kv => quoted (fst kv) ++ ": " ++ quoted (snd kv)) d)
            ++ "}")%string |}.

Definition posix_env : Env := env_of POSIX "/tmp/tmp" no_fault None.

(** The metrics directory may not be removed. *)
Definition denied_env : Env :=
  env_of POSIX "/tmp/tmp" (rmtree_denied "/srv/metrics") None.

(** The metrics directory may not be removed, and no temporary directory
    may be made either. *)
Definition no_fallback_env : Env :=
  env_of POSIX "/tmp/tmp"
    (fun op p =>
       match op with
       | OpRmtree => if String.eqb p "/srv/metrics" then Some PermissionError else None
       | OpMkdtemp => Some PermissionError
       | _ => None
       end) None.
Definition windows_env : Env := env_of WINDOWS "C:/Temp/tmp" no_fault None.

(** A POSIX host whose temporary directory lies deep in the file system. *)
Definition deep_tmp : string :=
  "/var/folders/" ++ repeat_a 80 ++ "/T/".
Definition deep_posix_env : Env := env_of POSIX deep_tmp no_fault None.

Definition world0 : World :=
  {| fs := [ ("/srv/metrics", Dir []) ];
     ports_in_use := [];
     prometheus_multiproc_dir := "/srv/metrics";
     trace := [] |}.

(** The metrics directory holds a file left by an earlier run. *)
Definition world_stale : World :=
  {| fs := [ ("/srv/metrics", Dir [ "counter_1.db" ]) ];
     ports_in_use := [];
     prometheus_multiproc_dir := "/srv/metrics";
     trace := [] |}.

Definition no_ssl : SSL := mkSSL None None None None None None None.

Definition args0 : ServeArgs :=
  {| bento_identifier := "svc:latest";
     working_dir := "/srv";
     port := 3000;
     host := "0.0.0.0";
     backlog := 2048;
     bentoml_home := "/srv/bentoml";
     reload := false;
     api_workers := None;
     ssl := no_ssl |}.

Definition two_runners : Service :=
  mkService [ mkRunner 140001 "embedder" 2; mkRunner 140002 "classifier" 3 ].

(** The runner is called like the API server's socket, and the override
    is zero. *)
Definition clashing_runner : Service :=
  mkService [ mkRunner 140001 "_bento_api_server" 2 ].

Definition args_zero_workers : ServeArgs :=
  {| bento_identifier := "svc:latest";
     working_dir := "/srv";
     port := 3000;
     host := "0.0.0.0";
     backlog := 2048;
     bentoml_home := "/srv/bentoml";
     reload := false;
     api_workers := Some 0;
     ssl := no_ssl |}.

(** Only the key file and the certificate are configured. *)
Definition key_and_cert : SSL :=
  mkSSL (Some "/srv/key.pem") (Some "/srv/cert.pem") None None None None None.

(** All seven TLS parameters are given; the peer-certificate mode is 0
    ([ssl.CERT_NONE]). *)
Definition ssl_cert_none : SSL :=
  mkSSL (Some "/srv/key.pem") (Some "/srv/cert.pem") (Some "secret")
    (Some 17) (Some 0) (Some "/srv/ca.pem") (Some "TLSv1").

(** A small [urlparse]: the scheme is what precedes the first colon when it
    consists of scheme characters, in lower case; the network location is
    what follows [//] up to the next [/], [?] or [#]. *)
Definition is_scheme_char (c : ascii) : bool :=
  let n := nat_of_ascii c in
  (((97 <=? n) && (n <=? 122)) || ((65 <=? n) && (n <=? 90))
   || ((48 <=? n) && (n <=? 57)) || (n =? 43) || (n =? 45) || (n =? 46))%nat%bool.

Definition lower (c : ascii) : ascii :=
  let n := nat_of_ascii c in
  if ((65 <=? n) && (n <=? 90))%nat%bool then ascii_of_nat (n + 32) else c.

Fixpoint split_scheme (s : string) : option (string * string) :=
  match s with
  | EmptyString => None
  | String c rest =>
      if Ascii.eqb c ":"%char then Some (EmptyString, rest)
      else if is_scheme_char c then
        match split_scheme rest with
        | Some (sch, after) => Some (String (lower c) sch, after)
        | None => None
        end
      else None
  end.

Fixpoint until_delimiter (s : string) : string :=
  match s with
  | EmptyString => EmptyString
  | String c rest =>
      if (Ascii.eqb c "/"%char || Ascii.eqb c "?"%char || Ascii.eqb c "#"%char)%bool
      then EmptyString
      else String c (until_delimiter rest)
  end.

Definition netloc_of (s : string) : string :=
  match s with
  | String "/"%char (String "/"%char rest) => until_delimiter rest
  | _ => EmptyString
  end.

Definition urlparse (url : string) : HttpApiServer.ParseResult :=
  match split_scheme url with
  | Some (String c sch, after) =>
      HttpApiServer.mkParseResult (String c sch) (netloc_of after)
  | _ => HttpApiServer.mkParseResult EmptyString (netloc_of url)
  end.

Fixpoint digits_value (s : string) (acc : Z) : option Z :=
  match s with
  | EmptyString => Some acc
  | String c rest =>
      let n := nat_of_ascii c in
      if ((48 <=? n) && (n <=? 57))%nat%bool
      then digits_value rest (10 * acc + Z.of_nat (n - 48))
      else None
  end.

(** [int(s)] for plain decimal digits. *)
Definition py_int (s : string) : option Z :=
  match s with
  | EmptyString => None
  | _ => digits_value s 0
  end.

Definition lib : HttpApiServer.Lib :=
  {| HttpApiServer.urlparse := urlparse;
     HttpApiServer.py_int := py_int;
     HttpApiServer.json_loads := fun _ => Some [];
     HttpApiServer.create_circus_socket_from_uri :=
       fun uri nm => Ok (mkCircusSocket nm (Tcp "127.0.0.1" 3000) 2048);
     HttpApiServer.unparse_click_params := fun p wid => [ "--worker-id"; wid ] |}.

(** A worker started with a plain TCP address, and one started by the
    supervisor with an inherited descriptor. *)
Definition worker_params (bind : string) : HttpApiServer.MainParams :=
  {| HttpApiServer.bento_identifier := "svc:latest";
     HttpApiServer.bind_uri := bind;
     HttpApiServer.runner_map := None;
     HttpApiServer.backlog := 2048;
     HttpApiServer.working_dir := Some "/srv";
     HttpApiServer.worker_id := Some 1;
     HttpApiServer.prometheus_dir := None;
     HttpApiServer.ssl := no_ssl |}.

(** The metrics path is a regular file. *)
Definition world_file : World :=
  {| fs := [ ("/srv/metrics", File) ];
     ports_in_use := [];
     prometheus_multiproc_dir := "/srv/metrics";
     trace := [] |}.

(** Removing the socket directory of [posix_env] is refused. *)
Definition uds_denied_env (outcome : option exn) : Env :=
  env_of POSIX "/tmp/tmp" (rmtree_denied "/tmp/tmpaaaaaaaaaaaaa") outcome.


(** The metrics directory may be removed, but not made again. *)
Definition mkdir_denied_env : Env :=
  env_of POSIX "/tmp/tmp"
    (fun op p =>
       match op with
       | OpMkdir => if String.eqb p "/srv/metrics" then Some PermissionError else None
       | _ => None
       end) None.

(** Two runners share one name. *)
Definition same_name_runners : Service :=
  mkService [ mkRunner 140001 "embedder" 2; mkRunner 140002 "embedder" 3 ].

End Demo.

(** ** Statements used by the properties below *)

(** Every option in a [--flag value] list, in order. *)
Fixpoint flag_pairs (args : list string) : list (string * string) :=
  match args with
  | flag :: value :: rest => (flag, value) :: flag_pairs rest
  | _ => []
  end.


Definition is_fs_event (e : event) : bool :=
  match e with
  | EvMkdtemp _ | EvRmtree _ | EvMkdir _ | EvWarning _ _ => true
  | _ => false
  end.

(** From [w] to [w'] only file-system events were added to the trace. *)
Definition only_fs_events (w w' : World) : Prop :=
  exists evs, trace w' = trace w ++ evs /\ forallb is_fs_event evs = true.


(** The seven optional TLS parameters with their flags, in the order in
    which the serve functions look at them. *)
Definition ssl_options (s : SSL) : list (string * option string) :=
  [ ("--ssl-keyfile", ssl_keyfile s);
    ("--ssl-certfile", ssl_certfile s);
    ("--ssl-keyfile-password", ssl_keyfile_password s);
    ("--ssl-version", option_map str_of_Z (ssl_version s));
    ("--ssl-cert-reqs", option_map str_of_Z (ssl_cert_reqs s));
    ("--ssl-ca-certs", ssl_ca_certs s);
    ("--ssl-ciphers", ssl_ciphers s) ].

(** The flag and the value of every parameter that is present. *)
Definition present_options (opts : list (string * option string))
    : list (string * string) :=
  flat_map (fun fv => match snd fv with
                      | Some v => [ (fst fv, v) ]
                      | None => []
                      end) opts.

Definition flatten_pairs (ps : list (string * string)) : list string :=
  flat_map (fun fv => [ fst fv; snd fv ]) ps.

(** The keys a dictionary has after the keys [names] were assigned in turn. *)
Definition add_key (ks : list string) (k : string) : list string :=
  if mem_str k ks then ks else ks ++ [k].

Definition add_keys (ks names : list string) : list string :=
  fold_left add_key names ks.

(** [for k, v in kvs: d[k] = v]. *)
Definition dict_set_all {V : Type} (kvs : list (string * V)) (d : dict V) : dict V :=
  fold_left (fun d kv => dict_set (fst kv) (snd kv) d) kvs d.

(** The last element of [l] that has the key [n]. *)
Definition last_named {A : Type} (key : A -> string) (n : string) (l : list A)
    : option A :=
  find (fun x => String.eqb n (key x)) (rev l).

(** The ports [n] successive reservations obtain when none is released in
    between, starting from the ports [used]. *)
Fixpoint reserve_seq (env : Env) (n : nat) (used : list Z) : list Z :=
  match n with
  | O => []
  | S n' =>
      let p := free_port env used in
      p :: reserve_seq env n' (p :: used)
  end.

Definition posix_socket (a : ServeArgs) (uds_path : string) (r : Runner)
    : CircusSocket :=
  mkCircusSocket (name r) (UnixPath (sockets_path_of uds_path r)) (backlog a).

Definition windows_socket (a : ServeArgs) (rp : Runner * Z) : CircusSocket :=
  mkCircusSocket (name (fst rp)) (Tcp "127.0.0.1" (snd rp)) (backlog a).

Definition windows_address (rp : Runner * Z) : string :=
  "tcp://" ++ "127.0.0.1" ++ ":" ++ str_of_Z (snd rp).

Definition api_socket (a : ServeArgs) : CircusSocket :=
  mkCircusSocket API_SERVER_NAME (Tcp (host a) (port a)) (backlog a).

Definition api_watcher
    (env : Env) (a : ServeArgs) (prometheus_dir : string)
    (bind_map : dict string) : Watcher :=
  {| w_name := "api_server";
     w_cmd := sys_executable env;
     w_args :=
       api_server_watcher_args env a
         (realpath_expanduser env (working_dir a)) prometheus_dir bind_map;
     w_copy_env := true;
     w_numprocesses := api_numprocesses env a;
     w_stop_children := true;
     w_use_sockets := true;
     w_working_dir := realpath_expanduser env (working_dir a);
     w_close_child_stdin := Watcher_default_close_child_stdin |}.

(** The plan that [plan_production] assembles from the runner sockets, the
    runner addresses and the runner watchers. *)
Definition assemble_plan
    (env : Env) (a : ServeArgs) (prometheus_dir : string)
    (uds_path : option string)
    (socks : list (string * CircusSocket)) (binds : list (string * string))
    (ws : list Watcher) : Plan :=
  {| plan_arbiter :=
       mkArbiter
         (ws ++ [ api_watcher env a prometheus_dir (dict_set_all binds []) ])
         (dict_values (dict_set API_SERVER_NAME (api_socket a) (dict_set_all socks [])))
         [];
     plan_uds_path := uds_path;
     plan_runner_bind_map := dict_set_all binds [] |}.

(** The loop variables after the runners' sockets, addresses and watchers
    were added. *)
Definition extend_state
    (st : PlanState)
    (socks : list (string * CircusSocket)) (binds : list (string * string))
    (ws : list Watcher) : PlanState :=
  {| watchers := watchers st ++ ws;
     circus_socket_map := dict_set_all socks (circus_socket_map st);
     runner_bind_map := dict_set_all binds (runner_bind_map st) |}.

(** The world after one more [tempfile.mkdtemp()]. *)
Definition after_mkdtemp (env : Env) (w : World) : World :=
  {| fs := dict_set (mkdtemp_name env (fs w)) (Dir []) (fs w);
     ports_in_use := ports_in_use w;
     prometheus_multiproc_dir := prometheus_multiproc_dir w;
     trace := trace w ++ [ EvMkdtemp (mkdtemp_name env (fs w)) ] |}.

(** The ports the Windows branch reserves for the runners, and the extra
    one, when the ports [used] are taken. *)
Definition runner_ports (env : Env) (svc : Service) (used : list Z) : list Z :=
  reserve_seq env (List.length (runners svc)) used.

Definition extra_port (env : Env) (svc : Service) (used : list Z) : Z :=
  free_port env (rev (runner_ports env svc used) ++ used).

Definition short_path (uds_path : string) (r : Runner) : Prop :=
  len (sockets_path_of uds_path r) < MAX_AF_UNIX_PATH_LENGTH.

(** One socket and one watcher for each runner, then one of each for the API
    server; one address for each runner name; each runner watcher runs as
    many processes as the runner schedules workers. *)
Definition one_spec_per_runner (svc : Service) (plan : Plan) : Prop :=
  let rs := runners svc in
  let sockets := arb_sockets (plan_arbiter plan) in
  let ws := arb_watchers (plan_arbiter plan) in
  List.length sockets = S (List.length rs) /\
  List.length ws = S (List.length rs) /\
  List.length (plan_runner_bind_map plan) = List.length rs /\
  map sock_name sockets = map name rs ++ [ API_SERVER_NAME ] /\
  map w_name ws = map (fun r => "runner_" ++ name r)%string rs ++ [ "api_server" ] /\
  dict_keys (plan_runner_bind_map plan) = map name rs /\
  map w_numprocesses (firstn (List.length rs) ws) = map scheduled_worker_count rs.

(** The process count of the API-server watcher, the last one. *)
Definition api_process_count (plan : Plan) : option Z :=
  option_map w_numprocesses
    (nth_error (arb_watchers (plan_arbiter plan))
       (List.length (arb_watchers (plan_arbiter plan)) - 1)).

(** "The explicit override when given, otherwise the ceiling of the
    available CPU allotment." *)
Definition override_or_ceiling (env : Env) (a : ServeArgs) : Z :=
  match api_workers a with
  | Some n => n
  | None => Qceiling (cpu_from_system env)
  end.

(** Planning does not stop before the plan is assembled: the platform is
    one of the two supported ones, on POSIX every socket path of this run
    is short enough, and [tempfile.mkdtemp] is not refused. *)
Definition allocation_possible (env : Env) (svc : Service) (w : World) : Prop :=
  platform env <> OtherOS /\
  (platform env = POSIX ->
   Forall (short_path (mkdtemp_name env (fs (snd (ensure_prometheus_dir env w)))))
     (runners svc)) /\
  mkdtemp_allowed env.

(** How often the trace records the removal of the directory [p]. *)
Definition count_rmtree (p : string) (tr : list event) : nat :=
  List.length
    (filter (fun e => match e with
                      | EvRmtree q => String.eqb p q
                      | _ => false
                      end) tr).

(** The socket path of some runner reaches the limit. *)
Definition some_path_too_long (uds_path : string) (svc : Service) : Prop :=
  Exists (fun r => MAX_AF_UNIX_PATH_LENGTH <= len (sockets_path_of uds_path r))
    (runners svc).

(** The value [if value:] lets through. *)
Definition truthy_str (value : option string) : option pyval :=
  match value with
  | Some v => if String.eqb v EmptyString then None else Some (PyStr v)
  | None => None
  end.

Definition truthy_int (value : option Z) : option pyval :=
  match value with
  | Some n => if n =? 0 then None else Some (PyInt n)
  | None => None
  end.

(** The seven TLS keys of the option dictionary of the HTTP server, each
    with the value it is expected to hold. *)
Definition uvicorn_ssl_values (s : SSL) : list (string * option pyval) :=
  [ ("ssl_keyfile", truthy_str (ssl_keyfile s));
    ("ssl_certfile", truthy_str (ssl_certfile s));
    ("ssl_keyfile_password", truthy_str (ssl_keyfile_password s));
    ("ssl_version", truthy_int (ssl_version s));
    ("ssl_cert_reqs", truthy_int (ssl_cert_reqs s));
    ("ssl_ca_certs", truthy_str (ssl_ca_certs s));
    ("ssl_ciphers", truthy_str (ssl_ciphers s)) ].

(** The options of an argument vector: what follows the three leading
    arguments [-m], the module and the service, read as flag and value. *)
Definition options_of_args (args : list string) : list (string * string) :=
  flag_pairs (skipn 3 args).

(** The arguments of the production API server that do not depend on the
    TLS parameters. *)
Definition api_server_base_args
    (env : Env) (a : ServeArgs) (wd pd : string) (bind_map : dict string)
    : list string :=
  [ "-m"; SCRIPT_API_SERVER; bento_identifier a ] ++
  flatten_pairs
    [ ("--bind", "fd://$(circus.sockets._bento_api_server)");
      ("--runner-map", json_dumps env bind_map);
      ("--working-dir", wd);
      ("--backlog", str_of_Z (backlog a));
      ("--worker-id", "$(CIRCUS.WID)");
      ("--prometheus-dir", pd) ].

(** Events in which a new socket is bound: a port reservation binds a
    socket to port 0, and a supervisor binds the sockets it is given when it
    starts. *)
Definition binds_socket (e : event) : bool :=
  match e with
  | EvReservePort _ | EvArbiterStart _ => true
  | _ => false
  end.

(** Events of serving: adopting a file descriptor and running the server. *)
Definition serves (e : event) : bool :=
  match e with
  | EvSocketFromFileno _ | EvUvicornRun _ _ => true
  | _ => false
  end.

(** [--runner-map] is absent or decodes. *)
Definition runner_map_decodes
    (lib : HttpApiServer.Lib) (p : HttpApiServer.MainParams) : Prop :=
  match HttpApiServer.runner_map p with
  | Some m => HttpApiServer.json_loads lib m <> None
  | None => True
  end.

(** ** Statements used by the further properties *)

(** A path component as pathlib keeps it: not empty, not [.], no slash. *)
Fixpoint no_slash (s : string) : bool :=
  match s with
  | EmptyString => true
  | String c rest => negb (Ascii.eqb c "/"%char) && no_slash rest
  end.

Definition piece_ok (c : string) : bool :=
  negb (String.eqb c EmptyString) && negb (String.eqb c ".") && no_slash c.

Definition is_cleanup_event (e : event) : bool :=
  match e with
  | EvRmtree _ | EvMkdir _ => true
  | _ => false
  end.

(** From [w] to [w'] directories were removed or made, and nothing else
    was recorded. *)
Definition only_cleanup_events (w w' : World) : Prop :=
  exists evs, trace w' = trace w ++ evs /\ forallb is_cleanup_event evs = true.

(** The address under which a socket is reached: what the runner loops
    store in [runner_bind_map] next to the socket. *)
Definition address_of_socket (env : Env) (s : CircusSocket) : string :=
  match sock_transport s with
  | UnixPath p => path_to_uri env p
  | Tcp h p => "tcp://" ++ h ++ ":" ++ str_of_Z p
  end.

(** The supervisor's notation for the file descriptor of the socket [n]. *)
Definition fd_uri (n : string) : string :=
  "fd://$(circus.sockets." ++ n ++ ")".

Definition count_arbiter_start (tr : list event) : nat :=
  List.length
    (filter (fun e => match e with
                      | EvArbiterStart _ => true
                      | _ => false
                      end) tr).


Definition allowed (env : Env) (op : fs_op) (p : string) : bool :=
  match fs_fault env op p with
  | None => true
  | Some _ => false
  end.

(** The configured metrics path can be used as it is found: it is missing
    and may be made, or an empty directory that may be listed, or a
    non-empty directory that may be listed, removed and made again. *)
Definition configured_dir_usable (env : Env) (w : World) : bool :=
  let p := absolute env (prometheus_multiproc_dir w) in
  match dict_get p (fs w) with
  | None => allowed env OpMkdir p
  | Some File => false
  | Some (Dir []) => allowed env OpIterdir p
  | Some (Dir (_ :: _)) =>
      allowed env OpIterdir p && allowed env OpRmtree p && allowed env OpMkdir p
  end.

(** * Properties *)

(** ** The effect monad and dictionaries *)

Ltac run_M :=
  unfold bind, ret, raise, emit, set_fs, set_ports,
    set_prometheus_multiproc_dir, lift_result in *; simpl in *.

Lemma dict_get_set_same {V : Type} (k : string) (v : V) (d : dict V) :
  dict_get k (dict_set k v d) = Some v.
Proof.
  induction d as [| [k' v'] d IH]; simpl.
  - now rewrite String.eqb_refl.
  - destruct (String.eqb k k') eqn:E; simpl.
    + now rewrite String.eqb_refl.
    + now rewrite E.
Qed.

Lemma dict_get_set_other {V : Type} (k k0 : string) (v : V) (d : dict V) :
  k0 <> k -> dict_get k0 (dict_set k v d) = dict_get k0 d.
Proof.
  intros Hne. induction d as [| [k' v'] d IH]; simpl.
  - destruct (String.eqb k0 k) eqn:E; auto.
    apply String.eqb_eq in E. contradiction.
  - destruct (String.eqb k k') eqn:E; simpl.
    + apply String.eqb_eq in E. subst k'.
      destruct (String.eqb k0 k) eqn:E0; auto.
      apply String.eqb_eq in E0. contradiction.
    + destruct (String.eqb k0 k'); auto.
Qed.

Lemma dict_get_del_same {V : Type} (k : string) (d : dict V) :
  dict_get k (dict_del k d) = None.
Proof.
  induction d as [| [k' v'] d IH]; simpl; auto.
  destruct (String.eqb k k') eqn:E; simpl; auto.
  now rewrite E.
Qed.

Lemma dict_get_del_other {V : Type} (k k0 : string) (d : dict V) :
  k0 <> k -> dict_get k0 (dict_del k d) = dict_get k0 d.
Proof.
  intros Hne. induction d as [| [k' v'] d IH]; simpl; auto.
  destruct (String.eqb k k') eqn:E; simpl.
  - apply String.eqb_eq in E. subst k'.
    destruct (String.eqb k0 k) eqn:E0; auto.
    apply String.eqb_eq in E0. contradiction.
  - destruct (String.eqb k0 k'); auto.
Qed.

Lemma dict_keys_set {V : Type} (k : string) (v : V) (d : dict V) :
  dict_keys (dict_set k v d) =
  if mem_str k (dict_keys d) then dict_keys d else dict_keys d ++ [k].
Proof.
  unfold dict_keys, mem_str.
  induction d as [| [k' v'] d IH]; simpl; auto.
  destruct (String.eqb k k') eqn:E; simpl.
  - apply String.eqb_eq in E. now subst.
  - rewrite IH. now destruct (existsb (String.eqb k) (map fst d)).
Qed.

Lemma dict_values_length {V : Type} (d : dict V) :
  List.length (dict_values d) = List.length (dict_keys d).
Proof. unfold dict_values, dict_keys. now rewrite !length_map. Qed.

Lemma mem_str_In (k : string) (ks : list string) :
  mem_str k ks = true <-> In k ks.
Proof.
  unfold mem_str. rewrite existsb_exists. split.
  - intros [x [Hin Heq]]. apply String.eqb_eq in Heq. now subst.
  - intros Hin. exists k. split; auto. apply String.eqb_refl.
Qed.

Lemma mem_str_not_In (k : string) (ks : list string) :
  mem_str k ks = false <-> ~ In k ks.
Proof.
  rewrite <- mem_str_In. destruct (mem_str k ks); split; congruence.
Qed.

(** ** [ensure_prometheus_dir] *)

Section EnsureFacts.

Variable env : Env.

Ltac solve_fs_events :=
  unfold only_fs_events; simpl;
  first
    [ exists []; split; [ now rewrite app_nil_r | reflexivity ]
    | eexists; split; [ rewrite <- ?app_assoc; simpl; reflexivity | reflexivity ] ].

(** The [try] block either returns the configured directory, which is then
    an empty directory, or raises an [OSError]. *)
Lemma ensure_try_cases (d : string) (w : World) :
  (exists w',
      ensure_prometheus_dir_try env d true w = (Ok (absolute env d), w') /\
      dict_get (absolute env d) (fs w') = Some (Dir []) /\
      ports_in_use w' = ports_in_use w /\
      only_fs_events w w') \/
  (exists k w',
      ensure_prometheus_dir_try env d true w = (Raise (OSError k), w') /\
      ports_in_use w' = ports_in_use w /\
      only_fs_events w w').
Proof.
  unfold ensure_prometheus_dir_try, path_exists, path_is_dir, any_iterdir,
    rmtree, mkdir.
  run_M.
  destruct (dict_get (absolute env d) (fs w)) as [[| [| x xs]] |] eqn:Hget;
    repeat (simpl; rewrite ?Hget, ?dict_get_del_same; simpl;
            match goal with
            | |- context [fs_fault env ?op ?p] => destruct (fs_fault env op p)
            end);
    simpl; rewrite ?Hget, ?dict_get_del_same; simpl;
    first
      [ solve [ left; eexists; repeat split; simpl;
                eauto using dict_get_set_same; solve_fs_events ]
      | solve [ right; do 2 eexists; repeat split; simpl; eauto;
                solve_fs_events ] ].
Qed.

(** With the defaults, an [OSError] in the [try] block leads to the
    fallback: when [tempfile.mkdtemp] is not refused, a new temporary
    directory, a warning, the container updated. *)
Lemma ensure_fallback (w w1 : World) (k : os_error) :
  ensure_prometheus_dir_try env (prometheus_multiproc_dir w) true w
    = (Raise (OSError k), w1) ->
  fs_fault env OpMkdtemp (mkdtemp_name env (fs w1)) = None ->
  ensure_prometheus_dir env w =
    (Ok (mkdtemp_name env (fs w1)),
     {| fs := dict_set (mkdtemp_name env (fs w1)) (Dir []) (fs w1);
        ports_in_use := ports_in_use w1;
        prometheus_multiproc_dir := mkdtemp_name env (fs w1);
        trace := (trace w1 ++ [EvMkdtemp (mkdtemp_name env (fs w1))])
                   ++ [EvWarning (prometheus_multiproc_dir w)
                         (mkdtemp_name env (fs w1))] |}).
Proof.
  intros Htry Hmk. unfold ensure_prometheus_dir, ensure_prometheus_dir_with.
  rewrite Htry. unfold mkdtemp. run_M. rewrite Hmk. reflexivity.
Qed.

(** When [tempfile.mkdtemp] is refused in the fallback, its error leaves
    the call: line 69 is outside the [try] statement. *)
Lemma ensure_fallback_refused (w w1 : World) (k k' : os_error) :
  ensure_prometheus_dir_try env (prometheus_multiproc_dir w) true w
    = (Raise (OSError k), w1) ->
  fs_fault env OpMkdtemp (mkdtemp_name env (fs w1)) = Some k' ->
  ensure_prometheus_dir env w = (Raise (OSError k'), w1).
Proof.
  intros Htry Hmk. unfold ensure_prometheus_dir, ensure_prometheus_dir_with.
  rewrite Htry. unfold mkdtemp. run_M. rewrite Hmk. reflexivity.
Qed.

Lemma ensure_direct (w w1 : World) (p : string) :
  ensure_prometheus_dir_try env (prometheus_multiproc_dir w) true w = (Ok p, w1) ->
  ensure_prometheus_dir env w = (Ok p, w1).
Proof.
  intros Htry. unfold ensure_prometheus_dir, ensure_prometheus_dir_with.
  now rewrite Htry.
Qed.

(** With the defaults the call returns whenever [tempfile.mkdtemp] is not
    refused; it leaves the ports alone and adds only file-system events. *)
Lemma ensure_total (w : World) :
  mkdtemp_allowed env ->
  exists p w',
    ensure_prometheus_dir env w = (Ok p, w') /\
    ports_in_use w' = ports_in_use w /\
    only_fs_events w w'.
Proof.
  intros Hmk.
  destruct (ensure_try_cases (prometheus_multiproc_dir w) w)
    as [[w1 [Htry [_ [Hports Hev]]]] | [k [w1 [Htry [Hports Hev]]]]].
  - apply ensure_direct in Htry. eauto.
  - apply ensure_fallback in Htry; [| apply Hmk].
    do 2 eexists. split; [exact Htry |].
    split; [exact Hports |].
    destruct Hev as [evs [Htr Hall]]. unfold only_fs_events. simpl.
    rewrite Htr.
    exists (evs ++ [EvMkdtemp (mkdtemp_name env (fs w1));
                    EvWarning (prometheus_multiproc_dir w) (mkdtemp_name env (fs w1))]).
    split.
    + now rewrite <- !app_assoc.
    + rewrite forallb_app, Hall. reflexivity.
Qed.




End EnsureFacts.

(** ** Optional TLS arguments *)

Lemma extend_if_not_None_app (args : list string) (flag : string) (v : option string) :
  extend_if_not_None args flag v =
  args ++ flatten_pairs (present_options [ (flag, v) ]).
Proof. destruct v; simpl; auto. now rewrite app_nil_r. Qed.

Lemma add_ssl_args_app (args : list string) (s : SSL) :
  add_ssl_args args s = args ++ flatten_pairs (present_options (ssl_options s)).
Proof.
  unfold add_ssl_args. rewrite !extend_if_not_None_app.
  rewrite <- !app_assoc. f_equal.
  unfold ssl_options, present_options, flatten_pairs. simpl.
  rewrite !app_nil_r.
  repeat (rewrite flat_map_app; f_equal).
Qed.

Lemma flag_pairs_flatten (ps : list (string * string)) :
  flag_pairs (flatten_pairs ps) = ps.
Proof.
  induction ps as [| [f v] ps IH]; simpl; auto. now rewrite IH.
Qed.

(** ** Dictionaries filled by a loop *)

Lemma dict_set_all_keys {V : Type} (kvs : list (string * V)) (d : dict V) :
  dict_keys (dict_set_all kvs d) = add_keys (dict_keys d) (map fst kvs).
Proof.
  revert d. induction kvs as [| [k v] kvs IH]; intros d; simpl; auto.
  unfold dict_set_all, add_keys in *. simpl. rewrite IH.
  now rewrite dict_keys_set.
Qed.

Lemma add_key_length_le (ks : list string) (k : string) :
  (List.length (add_key ks k) <= S (List.length ks))%nat.
Proof.
  unfold add_key. destruct (mem_str k ks); [lia |].
  rewrite length_app. simpl. lia.
Qed.

Lemma add_key_In (ks : list string) (k x : string) :
  In x (add_key ks k) <-> In x ks \/ x = k.
Proof.
  unfold add_key. destruct (mem_str k ks) eqn:E.
  - apply mem_str_In in E. split; [auto |]. intros [H | H]; subst; auto.
  - rewrite in_app_iff. simpl. intuition.
Qed.

Lemma add_keys_length_le (names ks : list string) :
  (List.length (add_keys ks names) <= List.length ks + List.length names)%nat.
Proof.
  revert ks. induction names as [| n names IH]; intros ks; simpl; [lia |].
  unfold add_keys in *. simpl.
  specialize (IH (add_key ks n)). pose proof (add_key_length_le ks n). lia.
Qed.

(** A name that is already a key adds no entry. *)
Lemma add_keys_length_known (names ks : list string) (n : string) :
  In n ks -> In n names ->
  (List.length (add_keys ks names) < List.length ks + List.length names)%nat.
Proof.
  revert ks. induction names as [| m names IH]; intros ks Hks Hn; [inversion Hn |].
  unfold add_keys in *. simpl.
  destruct (String.eqb m n) eqn:E.
  - apply String.eqb_eq in E. subst m.
    unfold add_key at 2. apply mem_str_In in Hks. rewrite Hks.
    pose proof (add_keys_length_le names ks). unfold add_keys in *. lia.
  - destruct Hn as [Hn | Hn]; [subst; rewrite String.eqb_refl in E; discriminate |].
    assert (Hks' : In n (add_key ks m)) by (apply add_key_In; auto).
    specialize (IH (add_key ks m) Hks' Hn).
    pose proof (add_key_length_le ks m). lia.
Qed.

(** A repeated name makes the dictionary smaller than the list of names. *)
Lemma add_keys_length_dup (names ks : list string) :
  ~ NoDup names ->
  (List.length (add_keys ks names) < List.length ks + List.length names)%nat.
Proof.
  revert ks. induction names as [| n names IH]; intros ks Hdup.
  - exfalso. apply Hdup. constructor.
  - unfold add_keys in *. simpl.
    destruct (in_dec string_dec n names) as [Hin | Hnin].
    + assert (Hk : In n (add_key ks n)) by (apply add_key_In; auto).
      pose proof (add_keys_length_known names (add_key ks n) n Hk Hin).
      pose proof (add_key_length_le ks n). unfold add_keys in *. lia.
    + assert (Hdup' : ~ NoDup names).
      { intros Hnd. apply Hdup. now constructor. }
      specialize (IH (add_key ks n) Hdup').
      pose proof (add_key_length_le ks n). lia.
Qed.

(** New, distinct keys are appended in order. *)
Lemma dict_set_fresh {V : Type} (k : string) (v : V) (d : dict V) :
  ~ In k (dict_keys d) -> dict_set k v d = d ++ [ (k, v) ].
Proof.
  induction d as [| [k' v'] d IH]; simpl; intros Hnin; auto.
  destruct (String.eqb k k') eqn:E.
  - apply String.eqb_eq in E. subst. tauto.
  - rewrite IH; auto.
Qed.

Lemma dict_set_all_fresh {V : Type} (kvs : list (string * V)) (d : dict V) :
  NoDup (map fst kvs) ->
  (forall k, In k (map fst kvs) -> ~ In k (dict_keys d)) ->
  dict_set_all kvs d = d ++ kvs.
Proof.
  revert d. induction kvs as [| [k v] kvs IH]; intros d Hnd Hdis; simpl.
  - now rewrite app_nil_r.
  - unfold dict_set_all in *. simpl.
    inversion Hnd as [| ? ? Hk Hnd']; subst.
    rewrite dict_set_fresh by (apply Hdis; simpl; auto).
    rewrite IH; auto.
    + now rewrite <- app_assoc.
    + intros k0 Hin. unfold dict_keys. rewrite map_app, in_app_iff. simpl.
      intros [H | [H | []]].
      * apply (Hdis k0); simpl; auto.
      * subst. contradiction.
Qed.

(** ** The runner loops *)

Section PlanFacts.

Variable env : Env.
Variable a : ServeArgs.

Variable wd : string.

Lemma posix_runner_loop_ok (uds_path : string) (rs : list Runner) (st : PlanState) :
  Forall (short_path uds_path) rs ->
  posix_runner_loop env a wd uds_path rs st =
    Ok (extend_state st
          (map (fun r => (name r, posix_socket a uds_path r)) rs)
          (map (fun r => (name r, path_to_uri env (sockets_path_of uds_path r))) rs)
          (map (fun r => runner_watcher env a wd r [] "$(CIRCUS.WID)") rs)).
Proof.
  revert st. induction rs as [| r rs IH]; intros st Hshort; simpl.
  - unfold extend_state. simpl. rewrite app_nil_r. now destruct st.
  - inversion Hshort as [| ? ? Hr Hrs]; subst.
    unfold short_path in Hr. apply Z.ltb_lt in Hr. rewrite Hr.
    rewrite IH by assumption. unfold extend_state. simpl.
    now rewrite <- app_assoc.
Qed.

Lemma posix_runner_loop_too_long (uds_path : string) (rs : list Runner) (st : PlanState) :
  Exists (fun r => MAX_AF_UNIX_PATH_LENGTH <= len (sockets_path_of uds_path r)) rs ->
  posix_runner_loop env a wd uds_path rs st = Raise AssertionError.
Proof.
  revert st. induction rs as [| r rs IH]; intros st Hex; simpl.
  - inversion Hex.
  - destruct (len (sockets_path_of uds_path r) <? MAX_AF_UNIX_PATH_LENGTH) eqn:E; auto.
    apply IH. inversion Hex as [? ? Hr | ? ? Hrs]; subst; auto.
    apply Z.ltb_lt in E. lia.
Qed.

Lemma windows_runner_loop_spec (rs : list Runner) (port_stack : list Z)
    (st : PlanState) (w : World) :
  let ports := reserve_seq env (List.length rs) (ports_in_use w) in
  windows_runner_loop env a wd rs port_stack st w =
    (Ok (rev ports ++ port_stack,
         extend_state st
           (map (fun rp => (name (fst rp), windows_socket a rp)) (combine rs ports))
           (map (fun rp => (name (fst rp), windows_address rp)) (combine rs ports))
           (map (fun r => runner_watcher env a wd r [ "--no-access-log" ] "$(circus.wid)") rs)),
     {| fs := fs w;
        ports_in_use := rev ports ++ ports_in_use w;
        prometheus_multiproc_dir := prometheus_multiproc_dir w;
        trace := trace w ++ map EvReservePort ports |}).
Proof.
  revert port_stack st w. induction rs as [| r rs IH]; intros port_stack st w; simpl.
  - unfold ret, extend_state. simpl. rewrite !app_nil_r. now destruct st, w.
  - unfold reserve_free_port_enter. run_M. rewrite IH. simpl.
    unfold extend_state. simpl.
    rewrite <- !app_assoc. simpl. reflexivity.
Qed.

Lemma exit_stack_close_spec (port_stack : list Z) (w : World) :
  exit_stack_close port_stack w =
    (Ok tt,
     {| fs := fs w;
        ports_in_use :=
          fold_left (fun used p => List.remove Z.eq_dec p used) port_stack (ports_in_use w);
        prometheus_multiproc_dir := prometheus_multiproc_dir w;
        trace := trace w ++ map EvReleasePort port_stack |}).
Proof.
  revert w. induction port_stack as [| p ps IH]; intros w; simpl.
  - unfold ret. rewrite app_nil_r. now destruct w.
  - unfold reserve_free_port_exit. run_M. rewrite IH. simpl.
    now rewrite <- app_assoc.
Qed.

Lemma reserve_seq_length (n : nat) (used : list Z) :
  List.length (reserve_seq env n used) = n.
Proof. revert used. induction n; intros used; simpl; auto. Qed.

(** Ports that are held together are pairwise distinct, and none of them
    was in use before. *)
Lemma reserve_seq_fresh (n : nat) (used : list Z) :
  free_port_fresh env ->
  NoDup (reserve_seq env n used) /\
  (forall p, In p (reserve_seq env n used) -> ~ In p used).
Proof.
  intros Hfresh. revert used. induction n as [| n IH]; intros used; simpl.
  - split; [constructor | intros p []].
  - destruct (IH (free_port env used :: used)) as [Hnd Hout]. split.
    + constructor; auto. intros Hin. apply (Hout _ Hin). simpl. auto.
    + intros p [Hp | Hp].
      * subst. apply Hfresh.
      * intros Hin. apply (Hout _ Hp). simpl. auto.
Qed.

End PlanFacts.

(** ** What [plan_production] returns *)

Section ProductionFacts.

Variable env : Env.
Variable a : ServeArgs.
Variable svc : Service.

Lemma plan_production_posix (w w1 : World) (pd : string) :
  platform env = POSIX ->
  ensure_prometheus_dir env w = (Ok pd, w1) ->
  fs_fault env OpMkdtemp (mkdtemp_name env (fs w1)) = None ->
  Forall (short_path (mkdtemp_name env (fs w1))) (runners svc) ->
  plan_production env a svc w =
    (Ok (assemble_plan env a pd (Some (mkdtemp_name env (fs w1)))
           (map (fun r => (name r, posix_socket a (mkdtemp_name env (fs w1)) r))
              (runners svc))
           (map (fun r => (name r,
                           path_to_uri env
                             (sockets_path_of (mkdtemp_name env (fs w1)) r)))
              (runners svc))
           (map (fun r => runner_watcher env a
                            (realpath_expanduser env (working_dir a)) r []
                            "$(CIRCUS.WID)")
              (runners svc))),
     after_mkdtemp env w1).
Proof.
  intros Hpf Hens Hmk Hshort.
  unfold plan_production, allocate_runner_sockets, mkdtemp. run_M.
  rewrite Hens, Hpf. simpl. rewrite Hmk. simpl.
  rewrite (posix_runner_loop_ok env a _ _ _ _ Hshort). simpl.
  reflexivity.
Qed.

Lemma plan_production_posix_too_long (w w1 : World) (pd : string) :
  platform env = POSIX ->
  ensure_prometheus_dir env w = (Ok pd, w1) ->
  fs_fault env OpMkdtemp (mkdtemp_name env (fs w1)) = None ->
  Exists (fun r => MAX_AF_UNIX_PATH_LENGTH
                   <= len (sockets_path_of (mkdtemp_name env (fs w1)) r))
    (runners svc) ->
  plan_production env a svc w = (Raise AssertionError, after_mkdtemp env w1).
Proof.
  intros Hpf Hens Hmk Hlong.
  unfold plan_production, allocate_runner_sockets, mkdtemp. run_M.
  rewrite Hens, Hpf. simpl. rewrite Hmk. simpl.
  rewrite (posix_runner_loop_too_long env a _ _ _ _ Hlong). simpl.
  reflexivity.
Qed.

Lemma plan_production_windows (w w1 : World) (pd : string) :
  platform env = WINDOWS ->
  ensure_prometheus_dir env w = (Ok pd, w1) ->
  let ports := runner_ports env svc (ports_in_use w1) in
  let extra := extra_port env svc (ports_in_use w1) in
  plan_production env a svc w =
    (Ok (assemble_plan env a pd None
           (map (fun rp => (name (fst rp), windows_socket a rp))
              (combine (runners svc) ports))
           (map (fun rp => (name (fst rp), windows_address rp))
              (combine (runners svc) ports))
           (map (fun r => runner_watcher env a
                            (realpath_expanduser env (working_dir a)) r
                            [ "--no-access-log" ] "$(circus.wid)")
              (runners svc))),
     {| fs := fs w1;
        ports_in_use :=
          fold_left (fun used p => List.remove Z.eq_dec p used)
            (extra :: rev ports) (extra :: rev ports ++ ports_in_use w1);
        prometheus_multiproc_dir := prometheus_multiproc_dir w1;
        trace := trace w1 ++ map EvReservePort (ports ++ [ extra ])
                          ++ map EvReleasePort (extra :: rev ports) |}).
Proof.
  intros Hpf Hens ports extra.
  unfold plan_production, allocate_runner_sockets. run_M.
  rewrite Hens, Hpf. simpl.
  rewrite windows_runner_loop_spec. simpl.
  unfold reserve_free_port_enter, reserve_free_port_exit. run_M.
  rewrite exit_stack_close_spec. simpl.
  rewrite !app_nil_r.
  fold (runner_ports env svc (ports_in_use w1)). fold ports.
  fold (extra_port env svc (ports_in_use w1)). fold extra.
  unfold assemble_plan. simpl.
  rewrite map_app. simpl. rewrite <- !app_assoc. simpl.
  reflexivity.
Qed.

Lemma plan_production_other (w w1 : World) (pd : string) :
  platform env = OtherOS ->
  ensure_prometheus_dir env w = (Ok pd, w1) ->
  plan_production env a svc w =
    (Raise (NotImplementedError ("Unsupported platform: " ++ sys_platform env)), w1).
Proof.
  intros Hpf Hens.
  unfold plan_production, allocate_runner_sockets. run_M.
  now rewrite Hens, Hpf.
Qed.

End ProductionFacts.

(** ** Counting sockets, watchers and addresses *)

Lemma map_fst_combine {A B : Type} (l : list A) (l' : list B) :
  List.length l = List.length l' -> map fst (combine l l') = l.
Proof.
  revert l'. induction l as [| x l IH]; intros [| y l'] Hlen; simpl in *;
    try discriminate; auto.
  f_equal. apply IH. lia.
Qed.

Section AssembleFacts.

Variable env : Env.
Variable a : ServeArgs.
Variable pd : string.
Variable uds : option string.
Variable rs : list Runner.
Variable socks : list (string * CircusSocket).
Variable binds : list (string * string).
Variable ws : list Watcher.

Hypothesis socks_keys : map fst socks = map name rs.
Hypothesis socks_names : map (fun kv => sock_name (snd kv)) socks = map name rs.
Hypothesis binds_keys : map fst binds = map name rs.
Hypothesis ws_names : map w_name ws = map (fun r => "runner_" ++ name r)%string rs.
Hypothesis ws_counts : map w_numprocesses ws = map scheduled_worker_count rs.

Lemma ws_length : List.length ws = List.length rs.
Proof.
  rewrite <- (length_map w_name ws), ws_names. apply length_map.
Qed.

Lemma assemble_plan_api_count :
  api_process_count (assemble_plan env a pd uds socks binds ws)
  = Some (api_numprocesses env a).
Proof.
  unfold api_process_count, assemble_plan. simpl.
  rewrite length_app. simpl.
  replace (List.length ws + 1 - 1)%nat with (List.length ws) by lia.
  rewrite nth_error_app2 by lia. rewrite Nat.sub_diag. reflexivity.
Qed.

Lemma assemble_plan_one_spec :
  NoDup (map name rs) ->
  ~ In API_SERVER_NAME (map name rs) ->
  one_spec_per_runner (mkService rs) (assemble_plan env a pd uds socks binds ws).
Proof.
  intros Hnd Hapi.
  assert (Hs : dict_set_all socks [] = socks).
  { rewrite dict_set_all_fresh; auto. now rewrite socks_keys. }
  assert (Hb : dict_set_all binds [] = binds).
  { rewrite dict_set_all_fresh; auto. now rewrite binds_keys. }
  assert (Hall : dict_set API_SERVER_NAME (api_socket a) socks
                 = socks ++ [ (API_SERVER_NAME, api_socket a) ]).
  { apply dict_set_fresh. unfold dict_keys. now rewrite socks_keys. }
  pose proof ws_length as Hwl.
  unfold one_spec_per_runner, assemble_plan. simpl.
  rewrite Hs, Hb, Hall. unfold dict_values, dict_keys.
  rewrite !map_app, !length_app, !length_map. simpl.
  rewrite map_map, socks_names, ws_names, binds_keys.
  rewrite <- (length_map fst socks), socks_keys.
  rewrite <- (length_map fst binds), binds_keys, !length_map.
  rewrite <- Hwl, firstn_app, Nat.sub_diag, firstn_all. simpl.
  rewrite app_nil_r, ws_counts.
  repeat split; auto; lia.
Qed.

(** Without any assumption on the names: one watcher per runner and one
    more, and as many sockets and addresses as there are distinct keys. *)
Lemma assemble_plan_sizes :
  let plan := assemble_plan env a pd uds socks binds ws in
  List.length (arb_watchers (plan_arbiter plan)) = S (List.length rs) /\
  List.length (plan_runner_bind_map plan)
    = List.length (add_keys [] (map name rs)) /\
  List.length (arb_sockets (plan_arbiter plan))
    = List.length (add_key (add_keys [] (map name rs)) API_SERVER_NAME).
Proof.
  unfold assemble_plan. simpl. pose proof ws_length as Hwl.
  rewrite length_app. simpl. split; [lia |]. split.
  - rewrite <- (length_map fst). fold (dict_keys (dict_set_all binds [])).
    rewrite dict_set_all_keys, binds_keys. reflexivity.
  - rewrite dict_values_length, dict_keys_set, dict_set_all_keys, socks_keys.
    reflexivity.
Qed.

End AssembleFacts.

(** Whenever allocation is possible, [plan_production] returns a plan that
    is assembled from one socket, one address and one watcher per runner. *)
Lemma plan_production_shape (env : Env) (a : ServeArgs) (svc : Service) (w : World) :
  allocation_possible env svc w ->
  exists pd w1 uds socks binds ws w',
    ensure_prometheus_dir env w = (Ok pd, w1) /\
    plan_production env a svc w
      = (Ok (assemble_plan env a pd uds socks binds ws), w') /\
    map fst socks = map name (runners svc) /\
    map (fun kv => sock_name (snd kv)) socks = map name (runners svc) /\
    map fst binds = map name (runners svc) /\
    map w_name ws = map (fun r => "runner_" ++ name r)%string (runners svc) /\
    map w_numprocesses ws = map scheduled_worker_count (runners svc).
Proof.
  intros [Hpf [Hshort Hmk]].
  destruct (ensure_total env w Hmk) as [pd [w1 [Hens _]]].
  rewrite Hens in Hshort. simpl in Hshort.
  destruct (platform env) eqn:Hp; [| | congruence].
  - specialize (Hshort eq_refl).
    exists pd, w1. do 5 eexists. split; [exact Hens |].
    split; [apply (plan_production_posix env a svc w w1 pd); auto; apply Hmk |].
    rewrite !map_map. simpl. repeat split; reflexivity.
  - exists pd, w1. do 5 eexists. split; [exact Hens |].
    split; [apply plan_production_windows; eauto |].
    assert (Hlen : List.length (runners svc)
                   = List.length (runner_ports env svc (ports_in_use w1))).
    { unfold runner_ports. now rewrite reserve_seq_length. }
    rewrite !map_map. simpl.
    rewrite <- (map_map fst name), (map_fst_combine _ _ Hlen).
    repeat split; reflexivity.
Qed.

(** ** C1: one socket and one process specification per runner *)

(** C1, as amended. When allocation is possible, the runner names are
    distinct and none of them is the API server's socket name, production
    planning returns a plan with exactly one socket and one watcher per
    runner plus one of each for the API server, one address per runner
    name, and each runner watcher's process count is the runner's worker
    count. The API-server watcher's process count is the [api_workers]
    override when it is given and not zero, and the ceiling of the CPU
    count otherwise. *)
Theorem production_plan_one_spec_per_runner
    (env : Env) (a : ServeArgs) (svc : Service) (w : World) :
  allocation_possible env svc w ->
  NoDup (map name (runners svc)) ->
  ~ In API_SERVER_NAME (map name (runners svc)) ->
  exists plan w',
    plan_production env a svc w = (Ok plan, w') /\
    one_spec_per_runner svc plan /\
    (forall n, api_workers a = Some n -> n <> 0 ->
               api_process_count plan = Some n) /\
    (api_workers a = None \/ api_workers a = Some 0 ->
     api_process_count plan = Some (Qceiling (cpu_from_system env))).
Proof.
  intros Halloc Hnd Hapi.
  destruct (plan_production_shape env a svc w Halloc)
    as [pd [w1 [uds [socks [binds [ws [w' [_ [Hplan [H1 [H2 [H3 [H4 H5]]]]]]]]]]]]].
  do 2 eexists. split; [exact Hplan |].
  split.
  - destruct svc as [rs]. simpl in *.
    now apply assemble_plan_one_spec.
  - rewrite assemble_plan_api_count.
    unfold api_numprocesses. split.
    + intros n Hn Hne. rewrite Hn.
      destruct (n =? 0) eqn:E; auto. apply Z.eqb_eq in E. contradiction.
    + intros [Hn | Hn]; rewrite Hn; reflexivity.
Qed.

Lemma production_plan_one_spec_per_runner_witness :
  exists plan w',
    plan_production Demo.posix_env Demo.args0 Demo.two_runners Demo.world0
      = (Ok plan, w') /\
    one_spec_per_runner Demo.two_runners plan /\
    api_process_count plan = Some 4.
Proof.
  destruct (production_plan_one_spec_per_runner
              Demo.posix_env Demo.args0 Demo.two_runners Demo.world0)
    as [plan [w' [Hplan [Hone [_ Hceil]]]]].
  - split; [discriminate |].
    split; [intros _; vm_compute; repeat constructor | intros p; reflexivity].
  - simpl. repeat constructor; simpl; intuition discriminate.
  - simpl. intuition discriminate.
  - exists plan, w'. split; [exact Hplan |]. split; [exact Hone |].
    apply Hceil. left. reflexivity.
Defined.

(** C1, as stated, fails. With one runner whose name is the name of the API
    server's socket and an override of zero, planning succeeds and the names
    are distinct, but the plan has one socket instead of two, and the API
    server runs four processes and not the zero that was given. *)
Lemma production_plan_claim_fails :
  exists plan w',
    plan_production Demo.posix_env Demo.args_zero_workers Demo.clashing_runner
      Demo.world0 = (Ok plan, w') /\
    NoDup (map name (runners Demo.clashing_runner)) /\
    List.length (arb_sockets (plan_arbiter plan)) = 1%nat /\
    ~ one_spec_per_runner Demo.clashing_runner plan /\
    api_process_count plan = Some 4 /\
    api_process_count plan
      <> Some (override_or_ceiling Demo.posix_env Demo.args_zero_workers).
Proof.
  do 2 eexists. split; [vm_compute; reflexivity |].
  split; [repeat constructor; simpl; tauto |].
  split; [reflexivity |].
  split; [| split; [reflexivity | discriminate]].
  intros [Hlen _]. simpl in Hlen. discriminate.
Qed.

(** ** C5: runners that share a name *)

(** C5, as amended. When two runners share a name and allocation is
    possible, production planning does not fail. It returns a plan with one
    watcher per runner and one for the API server, but with fewer sockets
    than watchers and fewer addresses than runners: the later runner
    replaces the earlier one's socket and address. *)
Theorem production_plan_shared_name
    (env : Env) (a : ServeArgs) (svc : Service) (w : World) :
  allocation_possible env svc w ->
  ~ NoDup (map name (runners svc)) ->
  exists plan w',
    plan_production env a svc w = (Ok plan, w') /\
    List.length (arb_watchers (plan_arbiter plan)) = S (List.length (runners svc)) /\
    (List.length (arb_sockets (plan_arbiter plan))
     < List.length (arb_watchers (plan_arbiter plan)))%nat /\
    (List.length (plan_runner_bind_map plan) < List.length (runners svc))%nat.
Proof.
  intros Halloc Hdup.
  destruct (plan_production_shape env a svc w Halloc)
    as [pd [w1 [uds [socks [binds [ws [w' [_ [Hplan [H1 [H2 [H3 [H4 H5]]]]]]]]]]]]].
  do 2 eexists. split; [exact Hplan |].
  destruct (assemble_plan_sizes env a pd uds (runners svc) socks binds ws H1 H3 H4)
    as [Hw [Hb Hs]].
  pose proof (add_keys_length_dup (map name (runners svc)) [] Hdup) as Hlt.
  pose proof (add_key_length_le (add_keys [] (map name (runners svc)))
                API_SERVER_NAME) as Hle.
  rewrite length_map in Hlt. simpl in Hlt.
  rewrite Hw, Hb, Hs. repeat split; lia.
Qed.

Lemma production_plan_shared_name_witness :
  exists plan w',
    plan_production Demo.windows_env Demo.args0 Demo.same_name_runners Demo.world0
      = (Ok plan, w') /\
    (List.length (arb_sockets (plan_arbiter plan))
     < List.length (arb_watchers (plan_arbiter plan)))%nat.
Proof.
  destruct (production_plan_shared_name
              Demo.windows_env Demo.args0 Demo.same_name_runners Demo.world0)
    as [plan [w' [Hplan [_ [Hlt _]]]]].
  - split; [discriminate |].
    split; [intros Hpf; vm_compute in Hpf; discriminate Hpf | intros p; reflexivity].
  - simpl. intros Hnd. inversion Hnd as [| ? ? Hnin _]. apply Hnin. simpl. auto.
  - exists plan, w'. split; [exact Hplan | exact Hlt].
Defined.

(** C5, as stated, fails. With two runners called ["embedder"] planning
    returns a plan, with three watchers, two sockets and one address. *)
Lemma production_plan_shared_name_not_rejected :
  exists plan w',
    plan_production Demo.posix_env Demo.args0 Demo.same_name_runners Demo.world0
      = (Ok plan, w') /\
    ~ NoDup (map name (runners Demo.same_name_runners)) /\
    List.length (arb_watchers (plan_arbiter plan)) = 3%nat /\
    List.length (arb_sockets (plan_arbiter plan)) = 2%nat /\
    List.length (plan_runner_bind_map plan) = 1%nat.
Proof.
  do 2 eexists. split; [vm_compute; reflexivity |].
  split; [| repeat split].
  simpl. intros Hnd. inversion Hnd as [| ? ? Hnin _]. apply Hnin. simpl. auto.
Qed.

(** ** C2 and C4: the socket path limit and the temporary directory *)

Section SocketDirectory.

Variable env : Env.
Variable a : ServeArgs.
Variable svc : Service.

(** An exception of [plan_production] is the outcome of [serve_production];
    the [finally] clause is not reached. *)
Lemma serve_production_planning_raises (w w' : World) (e : exn) :
  plan_production env a svc w = (Raise e, w') ->
  serve_production env a svc w = (Raise e, w').
Proof.
  intros Hplan. unfold serve_production, bind. now rewrite Hplan.
Qed.

(** When planning succeeds on POSIX and the directory can be removed, the
    supervisor is started once and the directory is removed once, however
    the supervisor ends. *)
Lemma serve_production_removes_uds_dir (w w1 : World) (pd : string) :
  platform env = POSIX ->
  mkdtemp_fresh env ->
  ensure_prometheus_dir env w = (Ok pd, w1) ->
  fs_fault env OpMkdtemp (mkdtemp_name env (fs w1)) = None ->
  Forall (short_path (mkdtemp_name env (fs w1))) (runners svc) ->
  fs_fault env OpRmtree (mkdtemp_name env (fs w1)) = None ->
  exists plan,
    plan_production env a svc w = (Ok plan, after_mkdtemp env w1) /\
    plan_uds_path plan = Some (mkdtemp_name env (fs w1)) /\
    serve_production env a svc w =
      (match arbiter_outcome env with None => Ok tt | Some e => Raise e end,
       {| fs := dict_del (mkdtemp_name env (fs w1)) (fs (after_mkdtemp env w1));
          ports_in_use := ports_in_use w1;
          prometheus_multiproc_dir := prometheus_multiproc_dir w1;
          trace := trace w1 ++ [ EvMkdtemp (mkdtemp_name env (fs w1));
                                 EvArbiterStart (plan_arbiter plan);
                                 EvRmtree (mkdtemp_name env (fs w1)) ] |}).
Proof.
  intros Hpf Hfresh Hens Hmkd Hshort Hrm.
  eexists. split; [apply (plan_production_posix env a svc w w1 pd); auto |].
  split; [reflexivity |].
  unfold serve_production, bind.
  rewrite (plan_production_posix env a svc w w1 pd Hpf Hens Hmkd Hshort).
  unfold try_finally, arbiter_start, rmtree, absolute. simpl.
  destruct (Hfresh (fs w1)) as [Habs _]. rewrite Habs.
  run_M. rewrite Hrm.
  destruct (arbiter_outcome env); simpl;
    rewrite dict_get_set_same; simpl; rewrite <- !app_assoc; reflexivity.
Qed.

End SocketDirectory.

(** C2, as amended. On POSIX, with [tempfile.mkdtemp] not refused, when the
    socket path of some runner has 103 characters or more, production
    serving fails with an [AssertionError], which carries no message. The
    temporary directory has been created by
    then, and it is the only effect after the metrics directory was
    resolved: no supervisor is started, so no socket is bound and no process
    is spawned. *)
Theorem production_long_socket_path
    (env : Env) (a : ServeArgs) (svc : Service) (w : World) :
  platform env = POSIX ->
  mkdtemp_allowed env ->
  some_path_too_long
    (mkdtemp_name env (fs (snd (ensure_prometheus_dir env w)))) svc ->
  serve_production env a svc w =
    (Raise AssertionError, after_mkdtemp env (snd (ensure_prometheus_dir env w))) /\
  only_fs_events w (after_mkdtemp env (snd (ensure_prometheus_dir env w))).
Proof.
  intros Hpf Hmk Hlong.
  destruct (ensure_total env w Hmk) as [pd [w1 [Hens [_ Hev]]]].
  rewrite Hens in *. simpl in *. split.
  - apply serve_production_planning_raises.
    apply plan_production_posix_too_long with (pd := pd); auto.
  - destruct Hev as [evs [Htr Hall]]. unfold only_fs_events, after_mkdtemp. simpl.
    exists (evs ++ [ EvMkdtemp (mkdtemp_name env (fs w1)) ]). split.
    + now rewrite Htr, <- app_assoc.
    + now rewrite forallb_app, Hall.
Qed.

Lemma production_long_socket_path_witness :
  fst (serve_production Demo.deep_posix_env Demo.args0 Demo.two_runners Demo.world0)
  = Raise AssertionError.
Proof.
  destruct (production_long_socket_path
              Demo.deep_posix_env Demo.args0 Demo.two_runners Demo.world0)
    as [Hserve _].
  - reflexivity.
  - intros p. reflexivity.
  - apply Exists_cons_hd. vm_compute. discriminate.
  - now rewrite Hserve.
Defined.

(** C2, as stated, fails. With a temporary directory that lies deep in the
    file system the path of the first runner's socket is too long. The call ends with an
    [AssertionError], and the directory has been created: it is in the file
    system, and creating it is the one recorded effect. *)
Lemma production_long_socket_path_creates_directory :
  exists uds w',
    serve_production Demo.deep_posix_env Demo.args0 Demo.two_runners Demo.world0
      = (Raise AssertionError, w') /\
    (103 <= len (sockets_path_of uds (mkRunner 140001 "embedder" 2))) /\
    dict_get uds (fs Demo.world0) = None /\
    dict_get uds (fs w') = Some (Dir []) /\
    trace w' = [ EvMkdtemp uds ].
Proof.
  exists (Demo.mkdtemp_under Demo.deep_tmp (fs Demo.world0)). eexists.
  split; [vm_compute; reflexivity |].
  split; [vm_compute; discriminate |]. repeat split.
Qed.

(** C4 at the failing input: the same run seen from the caller. The
    exception leaves [serve_production] before its [try] statement, the
    directory is still there afterwards and was never removed. *)
Theorem serve_production_leaks_uds_dir :
  exists uds w',
    serve_production Demo.deep_posix_env Demo.args0 Demo.two_runners Demo.world0
      = (Raise AssertionError, w') /\
    In (EvMkdtemp uds) (trace w') /\
    dict_get uds (fs w') = Some (Dir []) /\
    count_rmtree uds (trace w') = 0%nat.
Proof.
  exists (Demo.mkdtemp_under Demo.deep_tmp (fs Demo.world0)). eexists.
  split; [vm_compute; reflexivity |].
  split; [left; reflexivity |]. split; reflexivity.
Qed.

(** ** C6: development mode *)




(** ** C3: optional TLS parameters *)

Lemma get_set_if_truthy_str_same (d : dict pyval) (k : string) (v : option string) :
  dict_get k d = None ->
  dict_get k (HttpApiServer.set_if_truthy_str d k v) = truthy_str v.
Proof.
  intros Hnone. unfold HttpApiServer.set_if_truthy_str, truthy_str.
  destruct v as [x |]; auto.
  destruct (String.eqb x EmptyString); auto. apply dict_get_set_same.
Qed.

Lemma get_set_if_truthy_str_other (d : dict pyval) (k k0 : string) (v : option string) :
  k0 <> k ->
  dict_get k0 (HttpApiServer.set_if_truthy_str d k v) = dict_get k0 d.
Proof.
  intros Hne. unfold HttpApiServer.set_if_truthy_str.
  destruct v as [x |]; auto.
  destruct (String.eqb x EmptyString); auto. now apply dict_get_set_other.
Qed.

Lemma get_set_if_truthy_int_same (d : dict pyval) (k : string) (v : option Z) :
  dict_get k d = None ->
  dict_get k (HttpApiServer.set_if_truthy_int d k v) = truthy_int v.
Proof.
  intros Hnone. unfold HttpApiServer.set_if_truthy_int, truthy_int.
  destruct v as [n |]; auto.
  destruct (n =? 0); auto. apply dict_get_set_same.
Qed.

Lemma get_set_if_truthy_int_other (d : dict pyval) (k k0 : string) (v : option Z) :
  k0 <> k ->
  dict_get k0 (HttpApiServer.set_if_truthy_int d k v) = dict_get k0 d.
Proof.
  intros Hne. unfold HttpApiServer.set_if_truthy_int.
  destruct v as [n |]; auto.
  destruct (n =? 0); auto. now apply dict_get_set_other.
Qed.

Ltac lookup_option :=
  repeat first
    [ rewrite get_set_if_truthy_str_other by discriminate
    | rewrite get_set_if_truthy_int_other by discriminate ];
  first
    [ rewrite get_set_if_truthy_str_same; [reflexivity |]
    | rewrite get_set_if_truthy_int_same; [reflexivity |] ];
  repeat first
    [ rewrite get_set_if_truthy_str_other by discriminate
    | rewrite get_set_if_truthy_int_other by discriminate ];
  reflexivity.

(** C3, as amended. The argument vector of the production API server ends
    with the flag and the value of exactly those TLS parameters that are not
    [None], in the fixed order, integers in decimal; looking a TLS flag up
    among the options gives the parameter. With only the key file and the
    certificate set, the two flags with their values are all that is added.
    The option dictionary of the HTTP server holds a TLS key exactly when
    the parameter is present and truthy (a non-empty string, a non-zero
    integer), with the parameter as its value. *)
Theorem ssl_options_forwarded
    (env : Env) (a : ServeArgs) (wd pd : string) (bind_map : dict string)
    (bl : Z) (s : SSL) :
  api_server_watcher_args env a wd pd bind_map =
    api_server_base_args env a wd pd bind_map
    ++ flatten_pairs (present_options (ssl_options (ssl a))) /\
  (forall flag value,
      In (flag, value) (ssl_options (ssl a)) ->
      dict_get flag
        (skipn 6 (options_of_args (api_server_watcher_args env a wd pd bind_map)))
      = value) /\
  (forall k c,
      ssl a = mkSSL (Some k) (Some c) None None None None None ->
      skipn 6 (options_of_args (api_server_watcher_args env a wd pd bind_map))
      = [ ("--ssl-keyfile", k); ("--ssl-certfile", c) ]) /\
  (forall key value,
      In (key, value) (uvicorn_ssl_values s) ->
      dict_get key (HttpApiServer.uvicorn_options_of bl s) = value).
Proof.
  assert (Hargs : api_server_watcher_args env a wd pd bind_map =
                  api_server_base_args env a wd pd bind_map
                  ++ flatten_pairs (present_options (ssl_options (ssl a)))).
  { unfold api_server_watcher_args. apply add_ssl_args_app. }
  assert (Hopts : skipn 6 (options_of_args
                             (api_server_watcher_args env a wd pd bind_map))
                  = present_options (ssl_options (ssl a))).
  { rewrite Hargs. unfold options_of_args, api_server_base_args.
    remember (present_options (ssl_options (ssl a))) as tls eqn:Htls.
    simpl. now rewrite flag_pairs_flatten. }
  split; [exact Hargs |]. split; [| split].
  - intros flag value Hin. rewrite Hopts.
    destruct (ssl a) as [o1 o2 o3 o4 o5 o6 o7].
    unfold ssl_options in *.
    cbn [ssl_keyfile ssl_certfile ssl_keyfile_password ssl_version
         ssl_cert_reqs ssl_ca_certs ssl_ciphers] in *.
    simpl in Hin.
    repeat (destruct Hin as [Hin | Hin];
            [ injection Hin as Hf Hv; subst flag value;
              destruct o1, o2, o3, o4, o5, o6, o7; reflexivity |]).
    contradiction.
  - intros k c Hs. rewrite Hopts, Hs. reflexivity.
  - intros key value Hin. unfold uvicorn_ssl_values in Hin. simpl in Hin.
    unfold HttpApiServer.uvicorn_options_of.
    repeat (destruct Hin as [Hin | Hin];
            [ injection Hin as Hf Hv; subst key value; lookup_option |]).
    contradiction.
Qed.

(** C3, as stated, fails. All seven TLS parameters are given and the
    peer-certificate mode is 0: the argument vector carries [--ssl-cert-reqs 0],
    and the option dictionary of the HTTP server has no [ssl_cert_reqs]. *)
Lemma ssl_cert_reqs_zero_not_forwarded :
  ssl_cert_reqs Demo.ssl_cert_none = Some 0 /\
  dict_get "--ssl-cert-reqs"
    (present_options (ssl_options Demo.ssl_cert_none)) = Some "0" /\
  dict_get "ssl_cert_reqs"
    (HttpApiServer.uvicorn_options_of 2048 Demo.ssl_cert_none) = None /\
  dict_keys (HttpApiServer.uvicorn_options_of 2048 Demo.ssl_cert_none) =
    [ "backlog"; "log_config"; "workers"; "ssl_keyfile"; "ssl_certfile";
      "ssl_keyfile_password"; "ssl_version"; "ssl_ca_certs"; "ssl_ciphers" ].
Proof. repeat split. Qed.

(** ** The concrete environment meets the guarantees *)

Lemma demo_repeat_a_length (n : nat) : String.length (Demo.repeat_a n) = n.
Proof. induction n; simpl; auto. Qed.

Lemma string_length_append (s1 s2 : string) :
  String.length (s1 ++ s2) = (String.length s1 + String.length s2)%nat.
Proof. induction s1; simpl; auto. Qed.

Lemma demo_longest_key (f : dict node) (k : string) :
  dict_get k f <> None -> (String.length k <= Demo.longest_key f)%nat.
Proof.
  induction f as [| [k' n] f IH]; simpl; intros Hk; [congruence |].
  destruct (String.eqb k k') eqn:E.
  - apply String.eqb_eq in E. subst. lia.
  - specialize (IH Hk). lia.
Qed.

(** *** Paths in normal form *)

Lemma string_append_assoc (s1 s2 s3 : string) :
  ((s1 ++ s2) ++ s3 = s1 ++ (s2 ++ s3))%string.
Proof. induction s1; simpl; auto. now rewrite IHs1. Qed.

Lemma string_append_nil_r (s : string) : (s ++ EmptyString)%string = s.
Proof. induction s; simpl; auto. now rewrite IHs. Qed.


(** A stretch without slashes goes to the component being read. *)
Lemma path_components_piece (c rest cur : string) :
  no_slash c = true ->
  path_components (c ++ rest) cur = path_components rest (cur ++ c).
Proof.
  revert cur. induction c as [| x c IH]; intros cur Hc; simpl.
  - now rewrite string_append_nil_r.
  - simpl in Hc. apply andb_prop in Hc. destruct Hc as [Hx Hc].
    apply negb_true_iff in Hx. rewrite Hx.
    rewrite IH by assumption. now rewrite string_append_assoc.
Qed.

Lemma keep_component_ok (c : string) (cs : list string) :
  piece_ok c = true -> keep_component c cs = c :: cs.
Proof.
  unfold piece_ok, keep_component. intros H.
  apply andb_prop in H. destruct H as [H _].
  apply andb_prop in H. destruct H as [H1 H2].
  apply negb_true_iff in H1, H2. now rewrite H1, H2.
Qed.

Lemma piece_ok_no_slash (c : string) : piece_ok c = true -> no_slash c = true.
Proof. unfold piece_ok. intros H. apply andb_prop in H. tauto. Qed.

(** Cutting a joined list of components gives the components back. *)
Lemma path_components_join (cs : list string) :
  Forall (fun c => piece_ok c = true) cs ->
  path_components (join_slash cs) EmptyString = cs.
Proof.
  induction cs as [| c rest IH]; intros Hok; [reflexivity |].
  inversion Hok as [| ? ? Hc Hrest]; subst.
  pose proof (piece_ok_no_slash c Hc) as Hns.
  destruct rest as [| c2 rest].
  - simpl. rewrite <- (string_append_nil_r c) at 1.
    rewrite path_components_piece by assumption. simpl.
    now apply keep_component_ok.
  - change (join_slash (c :: c2 :: rest))
      with (c ++ String "/"%char (join_slash (c2 :: rest)))%string.
    rewrite path_components_piece by assumption.
    change (path_components (String "/"%char (join_slash (c2 :: rest))) (EmptyString ++ c))
      with (keep_component c (path_components (join_slash (c2 :: rest)) EmptyString)).
    rewrite IH by assumption. now apply keep_component_ok.
Qed.

Lemma leading_slashes_join (cs : list string) :
  Forall (fun c => piece_ok c = true) cs ->
  leading_slashes (join_slash cs) = O.
Proof.
  intros Hok. destruct cs as [| c rest]; [reflexivity |].
  inversion Hok as [| ? ? Hc _]; subst.
  assert (Hhead : exists x c', c = String x c' /\ Ascii.eqb x "/"%char = false).
  { unfold piece_ok in Hc. destruct c as [| x c']; [discriminate |].
    simpl in Hc. exists x, c'. split; [reflexivity |].
    destruct (Ascii.eqb x "/"%char); [| reflexivity].
    rewrite andb_false_r in Hc. discriminate. }
  destruct Hhead as [x [c' [-> Hx]]].
  destruct rest; simpl; now rewrite Hx.
Qed.

(** A rooted path in normal form is its own absolute form. *)
Lemma posix_absolute_normal (cwd root : string) (cs : list string) :
  root = "/" \/ root = "//" ->
  Forall (fun c => piece_ok c = true) cs ->
  posix_absolute cwd (root ++ join_slash cs) = (root ++ join_slash cs)%string.
Proof.
  intros Hroot Hok.
  pose proof (leading_slashes_join cs Hok) as Hlead.
  pose proof (path_components_join cs Hok) as Hcomp.
  unfold posix_absolute, path_root.
  destruct Hroot as [-> | ->]; simpl; rewrite Hlead; simpl;
    unfold keep_component; simpl; rewrite Hcomp; reflexivity.
Qed.




Lemma demo_no_slash_repeat_a (n : nat) : no_slash (Demo.repeat_a n) = true.
Proof. induction n; simpl; auto. Qed.


Lemma demo_mkdtemp_fresh
    (fault : fs_op -> string -> option os_error) (outcome : option exn) :
  mkdtemp_fresh (Demo.env_of POSIX "/tmp/tmp" fault outcome).
Proof.
  intros f. simpl. unfold Demo.mkdtemp_under. split.
  - change ("/tmp/tmp" ++ Demo.repeat_a (S (Demo.longest_key f)))%string
      with ("/" ++ join_slash
                     [ "tmp"; ("tmp" ++ Demo.repeat_a (S (Demo.longest_key f)))%string ])%string.
    apply posix_absolute_normal; [auto |].
    repeat constructor. unfold piece_ok. simpl.
    apply demo_no_slash_repeat_a.
  - destruct (dict_get ("/tmp/tmp" ++ Demo.repeat_a (S (Demo.longest_key f))) f)
      eqn:Hget; auto.
    exfalso.
    assert (Hk : dict_get ("/tmp/tmp" ++ Demo.repeat_a (S (Demo.longest_key f))) f
                 <> None) by (rewrite Hget; discriminate).
    apply demo_longest_key in Hk.
    rewrite string_length_append, demo_repeat_a_length in Hk. simpl in Hk. lia.
Qed.

(** The same on the Windows host of the examples, where the temporary
    directory carries a drive letter. *)
Lemma demo_windows_mkdtemp_fresh : mkdtemp_fresh Demo.windows_env.
Proof.
  intros f. simpl. unfold Demo.mkdtemp_under. split; [reflexivity |].
  destruct (dict_get ("C:/Temp/tmp" ++ Demo.repeat_a (S (Demo.longest_key f))) f)
    eqn:Hget; auto.
  exfalso.
  assert (Hk : dict_get ("C:/Temp/tmp" ++ Demo.repeat_a (S (Demo.longest_key f))) f
               <> None) by (rewrite Hget; discriminate).
  apply demo_longest_key in Hk.
  rewrite string_length_append, demo_repeat_a_length in Hk. simpl in Hk. lia.
Qed.

Lemma demo_free_port_fresh (pf : Platform) (base : string)
    (fault : fs_op -> string -> option os_error) (outcome : option exn) :
  free_port_fresh (Demo.env_of pf base fault outcome).
Proof.
  intros used. simpl. unfold Demo.next_port.
  assert (Hmax : forall p, In p used -> p <= fold_right Z.max 49151 used).
  { induction used as [| q used IH]; simpl; intros p Hp; [contradiction |].
    destruct Hp as [Hp | Hp]; [subst; lia |]. specialize (IH p Hp). lia. }
  intros Hin. apply Hmax in Hin. lia.
Qed.

(** ** C7 and C10: the metrics directory *)

(** What [plan_development] returns once the metrics directory is
    resolved, and the options of its watcher. *)
Lemma plan_development_after
    (env : Env) (a : ServeArgs) (svc : Service) (w w' : World) (pd : string) :
  ensure_prometheus_dir env w = (Ok pd, w') ->
  exists wt plugins,
    plan_development env a svc w
      = (Ok (mkArbiter [ wt ] [ api_socket a ] plugins), w') /\
    options_of_args (w_args wt) =
      [ ("--bind", "fd://$(circus.sockets._bento_api_server)");
        ("--working-dir", realpath_expanduser env (working_dir a));
        ("--prometheus-dir", pd) ] ++ present_options (ssl_options (ssl a)).
Proof.
  intros Hens. do 2 eexists. split.
  { unfold plan_development, bind. rewrite Hens. reflexivity. }
  cbn [w_args].
  unfold dev_api_server_watcher_args, options_of_args.
  rewrite add_ssl_args_app.
  remember (present_options (ssl_options (ssl a))) as tls eqn:Htls.
  simpl. now rewrite flag_pairs_flatten.
Qed.

Lemma api_server_options (env : Env) (a : ServeArgs) (wd pd : string)
    (bind_map : dict string) :
  options_of_args (api_server_watcher_args env a wd pd bind_map) =
    [ ("--bind", "fd://$(circus.sockets._bento_api_server)");
      ("--runner-map", json_dumps env bind_map);
      ("--working-dir", wd);
      ("--backlog", str_of_Z (backlog a));
      ("--worker-id", "$(CIRCUS.WID)");
      ("--prometheus-dir", pd) ] ++ present_options (ssl_options (ssl a)).
Proof.
  unfold api_server_watcher_args, options_of_args. rewrite add_ssl_args_app.
  remember (present_options (ssl_options (ssl a))) as tls eqn:Htls.
  simpl. now rewrite flag_pairs_flatten.
Qed.

(** C7, as amended. When creating or cleaning the configured metrics
    directory fails with an [OSError], the call with the defaults goes on to
    [tempfile.mkdtemp]. When that is not refused, the call returns the
    directory just created, records a warning and stores the directory in
    the container, and planning goes on with it: the development watcher
    and, when allocation is possible, the production API-server watcher are
    given it as [--prometheus-dir]. When [tempfile.mkdtemp] is refused, its
    [OSError] leaves the call, and both ways of planning end with it. *)
Theorem metrics_dir_fallback
    (env : Env) (a : ServeArgs) (svc : Service) (w w1 : World) (k : os_error) :
  mkdtemp_fresh env ->
  ensure_prometheus_dir_try env (prometheus_multiproc_dir w) true w
    = (Raise (OSError k), w1) ->
  let alt := mkdtemp_name env (fs w1) in
  match fs_fault env OpMkdtemp alt with
  | None =>
      exists w',
        ensure_prometheus_dir env w = (Ok alt, w') /\
        dict_get alt (fs w1) = None /\
        dict_get alt (fs w') = Some (Dir []) /\
        trace w' = trace w1 ++ [ EvMkdtemp alt;
                                 EvWarning (prometheus_multiproc_dir w) alt ] /\
        prometheus_multiproc_dir w' = alt /\
        (exists wt plugins,
            plan_development env a svc w
              = (Ok (mkArbiter [ wt ] [ api_socket a ] plugins), w') /\
            dict_get "--prometheus-dir" (options_of_args (w_args wt)) = Some alt) /\
        (allocation_possible env svc w ->
         exists plan w'' wt,
           plan_production env a svc w = (Ok plan, w'') /\
           nth_error (arb_watchers (plan_arbiter plan)) (List.length (runners svc))
             = Some wt /\
           w_name wt = "api_server" /\
           dict_get "--prometheus-dir" (options_of_args (w_args wt)) = Some alt)
  | Some k' =>
      ensure_prometheus_dir env w = (Raise (OSError k'), w1) /\
      plan_development env a svc w = (Raise (OSError k'), w1) /\
      plan_production env a svc w = (Raise (OSError k'), w1)
  end.
Proof.
  intros Hfresh Htry alt. subst alt.
  destruct (fs_fault env OpMkdtemp (mkdtemp_name env (fs w1))) as [k' |] eqn:Hmkd.
  - pose proof (ensure_fallback_refused env w w1 k k' Htry Hmkd) as Hens.
    split; [exact Hens |].
    split; [unfold plan_development | unfold plan_production];
      unfold bind; now rewrite Hens.
  - pose proof (ensure_fallback env w w1 k Htry Hmkd) as Hens.
    eexists. split; [exact Hens |]. simpl.
    split; [apply Hfresh |].
    split; [apply dict_get_set_same |].
    split; [now rewrite <- app_assoc |].
    split; [reflexivity |]. split.
    + destruct (plan_development_after env a svc w _ _ Hens)
        as [wt [plugins [Hplan Hopts]]].
      exists wt, plugins. split; [exact Hplan |]. rewrite Hopts. reflexivity.
    + intros Halloc.
      destruct (plan_production_shape env a svc w Halloc)
        as [pd [w2 [uds [socks [binds [ws [w'' [Hens' [Hplan [_ [_ [_ [H4 _]]]]]]]]]]]]].
      rewrite Hens in Hens'. injection Hens' as <- <-.
      do 2 eexists.
      exists (api_watcher env a (mkdtemp_name env (fs w1)) (dict_set_all binds [])).
      split; [exact Hplan |].
      unfold assemble_plan. cbn [plan_arbiter arb_watchers].
      assert (Hlen : List.length ws = List.length (runners svc)).
      { rewrite <- (length_map w_name ws), H4. apply length_map. }
      rewrite nth_error_app2 by lia. rewrite Hlen, Nat.sub_diag.
      split; [reflexivity |]. split; [reflexivity |].
      unfold api_watcher. cbn [w_args].
      rewrite api_server_options. reflexivity.
Qed.

Lemma metrics_dir_fallback_witness :
  exists alt w',
    ensure_prometheus_dir Demo.denied_env Demo.world_stale = (Ok alt, w') /\
    dict_get alt (fs w') = Some (Dir []) /\
    prometheus_multiproc_dir w' = alt.
Proof.
  pose proof (metrics_dir_fallback Demo.denied_env Demo.args0 Demo.two_runners
                Demo.world_stale Demo.world_stale PermissionError
                (demo_mkdtemp_fresh _ _) eq_refl) as H.
  simpl in H. destruct H as [w' [Hens [_ [Hdir [_ [Hpm _]]]]]].
  eexists. exists w'. split; [exact Hens |]. split; [exact Hdir | exact Hpm].
Defined.

(** C7, as stated, fails. The metrics directory holds a file and may not be
    removed, so cleaning fails with a permission error; no temporary
    directory may be made either. The call does not return a directory: it
    raises the error of [tempfile.mkdtemp], and development planning ends
    with the same error. *)
Lemma metrics_dir_fallback_aborts :
  ensure_prometheus_dir_try Demo.no_fallback_env "/srv/metrics" true
    Demo.world_stale = (Raise (OSError PermissionError), Demo.world_stale) /\
  ensure_prometheus_dir Demo.no_fallback_env Demo.world_stale
    = (Raise (OSError PermissionError), Demo.world_stale) /\
  plan_development Demo.no_fallback_env Demo.args0 Demo.two_runners
    Demo.world_stale = (Raise (OSError PermissionError), Demo.world_stale).
Proof. repeat split. Qed.




(** ** C8: Windows, loopback ports *)






(** ** C9: the worker adopts the inherited descriptor *)

Ltac eqb_to_prop H :=
  match type of H with
  | String.eqb _ _ = true => apply String.eqb_eq in H
  | String.eqb _ _ = false => apply String.eqb_neq in H
  end.

Ltac leaf_trace :=
  first
    [ exists []; split; [ reflexivity |];
      split; [ simpl; now rewrite app_nil_r |]
    | eexists; split; [ reflexivity |];
      split; [ simpl; rewrite <- ?app_assoc; simpl; reflexivity |] ].

(** C9. When [main] is given a worker id, every socket it uses is adopted
    from a file descriptor: no event of the run binds a socket, and the
    server only ever runs on the descriptor named by a bind URI whose scheme
    is [fd], after that descriptor was adopted. With any other scheme the
    call raises, an [AssertionError] when the runner map decodes, and
    nothing is served. *)
Theorem leaf_worker_adopts_fd
    (env : Env) (lib : HttpApiServer.Lib) (p : HttpApiServer.MainParams)
    (wid : Z) (w : World) :
  HttpApiServer.worker_id p = Some wid ->
  let parsed := HttpApiServer.urlparse lib (HttpApiServer.bind_uri p) in
  exists r w' evs,
    HttpApiServer.main env lib p w = (r, w') /\
    trace w' = trace w ++ evs /\
    existsb binds_socket evs = false /\
    (forall options fd,
        In (EvUvicornRun options fd) evs ->
        HttpApiServer.scheme parsed = "fd" /\
        HttpApiServer.py_int lib (HttpApiServer.netloc parsed) = Some fd /\
        In (EvSocketFromFileno fd) evs) /\
    (HttpApiServer.scheme parsed <> "fd" ->
     (exists e, r = Raise e) /\
     existsb serves evs = false /\
     (runner_map_decodes lib p -> r = Raise AssertionError)).
Proof.
  intros Hwid parsed. subst parsed.
  unfold HttpApiServer.main, HttpApiServer.main_worker, runner_map_decodes.
  rewrite Hwid. run_M.
  destruct (HttpApiServer.prometheus_dir p) as [d |];
    destruct (HttpApiServer.runner_map p) as [m |];
    try destruct (HttpApiServer.json_loads lib m) as [decoded |];
    simpl;
    destruct (platform env); simpl;
    destruct (String.eqb
                (HttpApiServer.scheme
                   (HttpApiServer.urlparse lib (HttpApiServer.bind_uri p)))
                "fd") eqn:Hfd;
    try destruct (HttpApiServer.py_int lib
                    (HttpApiServer.netloc
                       (HttpApiServer.urlparse lib (HttpApiServer.bind_uri p))))
      as [fd |] eqn:Hint;
    simpl;
    eqb_to_prop Hfd;
    do 2 eexists; leaf_trace;
    (split; [ reflexivity |]);
    (split;
     [ intros options fd0 Hin; simpl in Hin;
       repeat (destruct Hin as [Hin | Hin]; try discriminate Hin);
       try contradiction;
       injection Hin as _ <-; repeat split; simpl; auto
     | intros Hne;
       first
         [ contradiction
         | split; [ eexists; reflexivity |];
           split; [ reflexivity |];
           intros Hdec; first [ reflexivity | exfalso; now apply Hdec ] ] ]).
Qed.

Lemma leaf_worker_adopts_fd_witness :
  fst (HttpApiServer.main Demo.posix_env Demo.lib
         (Demo.worker_params "tcp://127.0.0.1:3000") Demo.world0)
  = Raise AssertionError.
Proof.
  destruct (leaf_worker_adopts_fd Demo.posix_env Demo.lib
              (Demo.worker_params "tcp://127.0.0.1:3000") 1 Demo.world0)
    as [r [w' [evs [Hmain [_ [_ [_ Hfail]]]]]]].
  - reflexivity.
  - rewrite Hmain. simpl. apply Hfail.
    + vm_compute. discriminate.
    + exact I.
Defined.

(** * Further properties *)

(** ** [ensure_prometheus_dir] with other arguments and in other states *)

Section EnsureMore.

Variable env : Env.

Ltac run_try :=
  unfold ensure_prometheus_dir_try, path_exists, path_is_dir, any_iterdir,
    rmtree, mkdir;
  run_M.

(** The [try] block never touches the container or the ports, whatever
    [clean] is, and ends in one of three ways. *)
Lemma ensure_try_outcomes (d : string) (clean : bool) (w : World) :
  exists r w',
    ensure_prometheus_dir_try env d clean w = (r, w') /\
    prometheus_multiproc_dir w' = prometheus_multiproc_dir w /\
    ports_in_use w' = ports_in_use w /\
    only_cleanup_events w w' /\
    match r with
    | Ok p => p = absolute env d /\ dict_get p (fs w') = Some (Dir [])
    | Raise (OSError _) => True
    | Raise (RuntimeError _) => clean = false /\ w' = w
    | Raise _ => False
    end.
Proof.
  run_try.
  destruct clean;
  destruct (dict_get (absolute env d) (fs w)) as [[| [| x xs]] |] eqn:Hget;
    repeat (simpl; rewrite ?Hget, ?dict_get_del_same; simpl;
            match goal with
            | |- context [fs_fault env ?op ?p] => destruct (fs_fault env op p)
            end);
    simpl; rewrite ?Hget, ?dict_get_del_same; simpl;
    do 2 eexists; (split; [ reflexivity |]); simpl;
    (split; [ reflexivity |]); (split; [ reflexivity |]);
    (split;
     [ unfold only_cleanup_events; simpl;
       first
         [ exists []; split; [ now rewrite app_nil_r | reflexivity ]
         | eexists; split;
           [ rewrite <- ?app_assoc; simpl; reflexivity | reflexivity ] ]
     | auto using dict_get_set_same ]).
Qed.


(** X2. With [use_alternative=False] there is no fallback: the call returns
    the configured directory, absolute and empty, or raises a
    [RuntimeError]. No temporary directory is made, no warning is recorded
    and the container keeps its value. *)
Theorem ensure_without_alternative (d : string) (clean : bool) (w : World) :
  exists r w',
    ensure_prometheus_dir_with env d clean false w = (r, w') /\
    prometheus_multiproc_dir w' = prometheus_multiproc_dir w /\
    only_cleanup_events w w' /\
    match r with
    | Ok p => p = absolute env d /\ dict_get p (fs w') = Some (Dir [])
    | Raise e => exists msg, e = RuntimeError msg
    end.
Proof.
  destruct (ensure_try_outcomes d clean w)
    as [r [w' [Htry [Hpm [_ [Hev Hr]]]]]].
  unfold ensure_prometheus_dir_with. rewrite Htry.
  destruct r as [p | e].
  - do 2 eexists. split; [reflexivity |]. auto.
  - destruct e; try contradiction; simpl;
      do 2 eexists; (split; [ reflexivity |]); repeat split; eauto.
Qed.

(** X3. A second resolution changes nothing. When the call with the
    defaults has returned a directory and listing that directory is not
    refused, calling it again returns the same directory and leaves the
    file system, the container and the trace as they are. *)
Theorem ensure_prometheus_dir_twice (w w1 : World) (p : string) :
  mkdtemp_fresh env ->
  ensure_prometheus_dir env w = (Ok p, w1) ->
  fs_fault env OpIterdir p = None ->
  ensure_prometheus_dir env w1 = (Ok p, w1).
Proof.
  intros Hfresh Hens Hit.
  destruct (ensure_try_outcomes (prometheus_multiproc_dir w) true w)
    as [r [w' [Htry [Hpm [_ [_ Hr]]]]]].
  destruct r as [q | e].
  - (* the configured directory was returned *)
    destruct Hr as [Hq Hdir]. apply ensure_direct in Htry.
    rewrite Hens in Htry. injection Htry as -> ->. subst q.
    apply ensure_direct. rewrite Hpm. run_try.
    repeat (rewrite ?Hdir, ?Hit; simpl). reflexivity.
  - destruct e as [k | | msg | | | |]; try contradiction.
    + (* the fallback was taken *)
      destruct (fs_fault env OpMkdtemp (mkdtemp_name env (fs w')))
        as [k' |] eqn:Hmk.
      { rewrite (ensure_fallback_refused env w w' k k' Htry Hmk) in Hens.
        discriminate Hens. }
      apply ensure_fallback in Htry; [| exact Hmk]. rewrite Hens in Htry.
      injection Htry as Hp Hw1.
      destruct (Hfresh (fs w')) as [Habs _].
      assert (Hself : absolute env p = p).
      { unfold absolute. subst p. now rewrite Habs. }
      assert (Hdir : dict_get p (fs w1) = Some (Dir [])).
      { subst p w1. simpl. apply dict_get_set_same. }
      assert (Hpm1 : prometheus_multiproc_dir w1 = p).
      { subst p w1. reflexivity. }
      apply ensure_direct. rewrite Hpm1. run_try.
      repeat (rewrite ?Hself, ?Hdir, ?Hit; simpl). reflexivity.
    + destruct Hr as [Hfalse _]. discriminate.
Qed.

(** X4. When the configured path is a regular file, the call with the
    defaults leaves the file where it is and goes on to [tempfile.mkdtemp]:
    it returns the new temporary directory, with a warning, and the
    container then names that directory; when [tempfile.mkdtemp] is
    refused, its error is raised and nothing has changed. *)
Theorem ensure_prometheus_dir_regular_file (w : World) :
  mkdtemp_fresh env ->
  dict_get (absolute env (prometheus_multiproc_dir w)) (fs w) = Some File ->
  match fs_fault env OpMkdtemp (mkdtemp_name env (fs w)) with
  | None =>
      exists w',
        ensure_prometheus_dir env w = (Ok (mkdtemp_name env (fs w)), w') /\
        dict_get (absolute env (prometheus_multiproc_dir w)) (fs w') = Some File /\
        dict_get (mkdtemp_name env (fs w)) (fs w') = Some (Dir []) /\
        prometheus_multiproc_dir w' = mkdtemp_name env (fs w) /\
        trace w' = trace w ++ [ EvMkdtemp (mkdtemp_name env (fs w));
                                EvWarning (prometheus_multiproc_dir w)
                                  (mkdtemp_name env (fs w)) ]
  | Some k => ensure_prometheus_dir env w = (Raise (OSError k), w)
  end.
Proof.
  intros Hfresh Hfile.
  assert (Htry : exists k,
             ensure_prometheus_dir_try env (prometheus_multiproc_dir w) true w
             = (Raise (OSError k), w)).
  { run_try. repeat (rewrite ?Hfile; simpl).
    destruct (fs_fault env OpRmtree (absolute env (prometheus_multiproc_dir w)));
      repeat (rewrite ?Hfile; simpl); eexists; reflexivity. }
  destruct Htry as [k Htry].
  destruct (fs_fault env OpMkdtemp (mkdtemp_name env (fs w))) as [k' |] eqn:Hmk.
  { exact (ensure_fallback_refused env w w k k' Htry Hmk). }
  apply ensure_fallback in Htry; [| exact Hmk].
  eexists. split; [exact Htry |]. simpl.
  destruct (Hfresh (fs w)) as [_ Hnew].
  split.
  - rewrite dict_get_set_other; [exact Hfile |].
    intros Heq. rewrite Heq in Hfile. congruence.
  - split; [apply dict_get_set_same |]. split; [reflexivity |].
    now rewrite <- app_assoc.
Qed.

End EnsureMore.


Lemma ensure_prometheus_dir_twice_witness :
  exists p w1,
    ensure_prometheus_dir Demo.denied_env Demo.world_stale = (Ok p, w1) /\
    ensure_prometheus_dir Demo.denied_env w1 = (Ok p, w1).
Proof.
  destruct (ensure_prometheus_dir Demo.denied_env Demo.world_stale)
    as [[p | e] w1] eqn:Hens; [| vm_compute in Hens; discriminate Hens].
  exists p, w1. split; [reflexivity |].
  apply (ensure_prometheus_dir_twice Demo.denied_env Demo.world_stale w1 p).
  - apply demo_mkdtemp_fresh.
  - exact Hens.
  - reflexivity.
Defined.

Lemma ensure_prometheus_dir_regular_file_witness :
  exists w',
    ensure_prometheus_dir Demo.posix_env Demo.world_file
      = (Ok (mkdtemp_name Demo.posix_env (fs Demo.world_file)), w') /\
    dict_get "/srv/metrics" (fs w') = Some File.
Proof.
  pose proof (ensure_prometheus_dir_regular_file Demo.posix_env Demo.world_file
                (demo_mkdtemp_fresh _ _) eq_refl) as H.
  simpl in H. destruct H as [w' [Hens [Hfile _]]].
  exists w'. split; [exact Hens | exact Hfile].
Defined.

(** ** [serve_production] from start to end *)

Lemma count_rmtree_app (p : string) (tr1 tr2 : list event) :
  count_rmtree p (tr1 ++ tr2) = (count_rmtree p tr1 + count_rmtree p tr2)%nat.
Proof. unfold count_rmtree. now rewrite filter_app, length_app. Qed.

Lemma count_arbiter_start_app (tr1 tr2 : list event) :
  count_arbiter_start (tr1 ++ tr2)
  = (count_arbiter_start tr1 + count_arbiter_start tr2)%nat.
Proof. unfold count_arbiter_start. now rewrite filter_app, length_app. Qed.

Lemma remove_not_in (p : Z) (l : list Z) :
  ~ In p l -> List.remove Z.eq_dec p l = l.
Proof.
  induction l as [| q l IH]; simpl; intros Hnin; auto.
  destruct (Z.eq_dec p q) as [-> | Hne]; [tauto |].
  rewrite IH; tauto.
Qed.

(** Releasing a stack of distinct ports that sit on top of [used], none of
    which is in [used], gives [used] back. *)
Lemma release_all (stack used : list Z) :
  NoDup stack ->
  (forall p, In p stack -> ~ In p used) ->
  fold_left (fun u p => List.remove Z.eq_dec p u) stack (stack ++ used) = used.
Proof.
  induction stack as [| p ps IH]; simpl; intros Hnd Hout; auto.
  inversion Hnd as [| ? ? Hp Hps]; subst.
  destruct (Z.eq_dec p p) as [_ | Hne]; [| congruence].
  rewrite remove_not_in.
  - apply IH; auto.
  - rewrite in_app_iff. intros [H | H]; [contradiction |].
    apply (Hout p); simpl; auto.
Qed.

(** X5. On a platform that is neither POSIX nor Windows, and with
    [tempfile.mkdtemp] not refused, production serving raises a
    [NotImplementedError] that names [sys.platform]. The metrics directory
    has been resolved by then; nothing else happened: no socket directory,
    no port, no supervisor. *)
Theorem serve_production_unsupported_platform
    (env : Env) (a : ServeArgs) (svc : Service) (w : World) :
  platform env = OtherOS ->
  mkdtemp_allowed env ->
  serve_production env a svc w =
    (Raise (NotImplementedError ("Unsupported platform: " ++ sys_platform env)),
     snd (ensure_prometheus_dir env w)) /\
  only_fs_events w (snd (ensure_prometheus_dir env w)) /\
  ports_in_use (snd (ensure_prometheus_dir env w)) = ports_in_use w.
Proof.
  intros Hpf Hmk.
  destruct (ensure_total env w Hmk) as [pd [w1 [Hens [Hports Hev]]]].
  rewrite Hens. simpl. split; [| auto].
  apply serve_production_planning_raises.
  now apply plan_production_other with (pd := pd).
Qed.

Lemma serve_production_unsupported_platform_witness :
  fst (serve_production (Demo.env_of OtherOS "/tmp/tmp" Demo.no_fault None)
         Demo.args0 Demo.two_runners Demo.world0)
  = Raise (NotImplementedError "Unsupported platform: java").
Proof.
  destruct (serve_production_unsupported_platform
              (Demo.env_of OtherOS "/tmp/tmp" Demo.no_fault None)
              Demo.args0 Demo.two_runners Demo.world0 eq_refl
              (fun p => eq_refl)) as [Hserve _].
  now rewrite Hserve.
Defined.

(** X6. On POSIX, when [tempfile.mkdtemp] is not refused, the socket paths
    are short enough and the socket directory can be removed, the supervisor is started once and the directory is removed
    once and is gone afterwards, and the call ends the way the supervisor
    ended: it returns when the supervisor returned and raises the
    supervisor's exception otherwise. *)
Theorem serve_production_cleanup_once
    (env : Env) (a : ServeArgs) (svc : Service) (w : World) :
  platform env = POSIX ->
  mkdtemp_fresh env ->
  mkdtemp_allowed env ->
  let w1 := snd (ensure_prometheus_dir env w) in
  let uds := mkdtemp_name env (fs w1) in
  Forall (short_path uds) (runners svc) ->
  fs_fault env OpRmtree uds = None ->
  exists w',
    serve_production env a svc w =
      (match arbiter_outcome env with None => Ok tt | Some e => Raise e end, w') /\
    count_rmtree uds (trace w') = S (count_rmtree uds (trace w1)) /\
    count_arbiter_start (trace w') = S (count_arbiter_start (trace w1)) /\
    dict_get uds (fs w') = None.
Proof.
  intros Hpf Hfresh Hmk w1 uds Hshort Hrm.
  destruct (ensure_total env w Hmk) as [pd [w1' [Hens _]]].
  assert (Hw1 : w1 = w1') by (unfold w1; now rewrite Hens). subst w1'.
  destruct (serve_production_removes_uds_dir env a svc w w1 pd
              Hpf Hfresh Hens (Hmk _) Hshort Hrm) as [plan [_ [_ Hserve]]].
  eexists. split; [exact Hserve |]. cbn [trace fs].
  rewrite count_rmtree_app, count_arbiter_start_app.
  fold uds. split; [| split].
  - unfold count_rmtree at 2. simpl. rewrite String.eqb_refl. simpl. lia.
  - unfold count_arbiter_start at 2. simpl. lia.
  - apply dict_get_del_same.
Qed.

Lemma serve_production_cleanup_once_witness :
  exists w',
    serve_production (Demo.env_of POSIX "/tmp/tmp" Demo.no_fault (Some KeyboardInterrupt))
      Demo.args0 Demo.two_runners Demo.world0 = (Raise KeyboardInterrupt, w') /\
    dict_get "/tmp/tmpaaaaaaaaaaaaa" (fs w') = None.
Proof.
  destruct (serve_production_cleanup_once
              (Demo.env_of POSIX "/tmp/tmp" Demo.no_fault (Some KeyboardInterrupt))
              Demo.args0 Demo.two_runners Demo.world0)
    as [w' [Hserve [_ [_ Hgone]]]].
  - reflexivity.
  - apply demo_mkdtemp_fresh.
  - intros p. reflexivity.
  - vm_compute. repeat constructor.
  - reflexivity.
  - exists w'. split; [exact Hserve | exact Hgone].
Defined.

(** X7. On POSIX, when [tempfile.mkdtemp] is not refused, the socket paths
    are short enough and removing the socket directory is refused, the call raises that [OSError], whichever way the supervisor
    ended: an exception of the supervisor is replaced by it. The directory
    stays. *)
Theorem serve_production_cleanup_refused
    (env : Env) (a : ServeArgs) (svc : Service) (w : World) (k : os_error) :
  platform env = POSIX ->
  mkdtemp_fresh env ->
  mkdtemp_allowed env ->
  let w1 := snd (ensure_prometheus_dir env w) in
  let uds := mkdtemp_name env (fs w1) in
  Forall (short_path uds) (runners svc) ->
  fs_fault env OpRmtree uds = Some k ->
  exists w',
    serve_production env a svc w = (Raise (OSError k), w') /\
    count_arbiter_start (trace w') = S (count_arbiter_start (trace w1)) /\
    count_rmtree uds (trace w') = count_rmtree uds (trace w1) /\
    dict_get uds (fs w') = Some (Dir []).
Proof.
  intros Hpf Hfresh Hmk w1 uds Hshort Hrm.
  destruct (ensure_total env w Hmk) as [pd [w1' [Hens _]]].
  assert (Hw1 : w1 = w1') by (unfold w1; now rewrite Hens). subst w1'.
  unfold serve_production, bind.
  rewrite (plan_production_posix env a svc w w1 pd Hpf Hens (Hmk _) Hshort).
  unfold try_finally, arbiter_start, rmtree, absolute.
  cbn [plan_uds_path assemble_plan].
  destruct (Hfresh (fs w1)) as [Habs _]. rewrite Habs.
  fold uds in Hrm |- *. rewrite Hrm. run_M.
  destruct (arbiter_outcome env); simpl;
    (eexists; split; [ reflexivity |]); cbn [trace fs];
    rewrite !count_rmtree_app, !count_arbiter_start_app;
    (split; [ unfold count_arbiter_start at 2 3; simpl; lia |]);
    (split; [ unfold count_rmtree at 2 3; simpl; lia |]);
    apply dict_get_set_same.
Qed.

Lemma serve_production_cleanup_refused_witness :
  fst (serve_production (Demo.uds_denied_env (Some KeyboardInterrupt))
         Demo.args0 Demo.two_runners Demo.world0)
  = Raise (OSError PermissionError).
Proof.
  destruct (serve_production_cleanup_refused
              (Demo.uds_denied_env (Some KeyboardInterrupt))
              Demo.args0 Demo.two_runners Demo.world0 PermissionError)
    as [w' [Hserve _]].
  - reflexivity.
  - apply demo_mkdtemp_fresh.
  - intros p. reflexivity.
  - vm_compute. repeat constructor.
  - reflexivity.
  - now rewrite Hserve.
Defined.

(** X8. On Windows, with [tempfile.mkdtemp] not refused while the metrics
    directory is resolved, every port that planning reserved is released before
    the supervisor is started: the ports in use are those from before. The
    call then starts the supervisor once, ends the way the supervisor ended,
    and removes nothing on the way out. *)
Theorem serve_production_windows
    (env : Env) (a : ServeArgs) (svc : Service) (w : World) :
  platform env = WINDOWS ->
  free_port_fresh env ->
  mkdtemp_allowed env ->
  let w1 := snd (ensure_prometheus_dir env w) in
  exists plan w2 w',
    plan_production env a svc w = (Ok plan, w2) /\
    ports_in_use w2 = ports_in_use w1 /\
    serve_production env a svc w =
      (match arbiter_outcome env with None => Ok tt | Some e => Raise e end, w') /\
    trace w' = trace w2 ++ [ EvArbiterStart (plan_arbiter plan) ] /\
    fs w' = fs w1 /\
    ports_in_use w' = ports_in_use w1.
Proof.
  intros Hpf Hfresh Hmk w1.
  destruct (ensure_total env w Hmk) as [pd [w1' [Hens _]]].
  assert (Hw1 : w1 = w1') by (unfold w1; now rewrite Hens). subst w1'.
  pose proof (plan_production_windows env a svc w w1 pd Hpf Hens) as Hplan.
  cbv zeta in Hplan.
  assert (Hrel :
    fold_left (fun used p => List.remove Z.eq_dec p used)
      (extra_port env svc (ports_in_use w1)
         :: rev (runner_ports env svc (ports_in_use w1)))
      (extra_port env svc (ports_in_use w1)
         :: rev (runner_ports env svc (ports_in_use w1)) ++ ports_in_use w1)
    = ports_in_use w1).
  { destruct (reserve_seq_fresh env (List.length (runners svc))
                (ports_in_use w1) Hfresh) as [Hnd Hout].
    fold (runner_ports env svc (ports_in_use w1)) in Hnd, Hout.
    assert (Hextra : ~ In (extra_port env svc (ports_in_use w1))
                          (rev (runner_ports env svc (ports_in_use w1))
                             ++ ports_in_use w1)).
    { apply Hfresh. }
    rewrite in_app_iff in Hextra.
    apply (release_all
             (extra_port env svc (ports_in_use w1)
                :: rev (runner_ports env svc (ports_in_use w1)))).
    - constructor; [tauto | now apply NoDup_rev].
    - intros p [Hp | Hp]; [subst; tauto |].
      apply Hout. now apply in_rev. }
  do 3 eexists. split; [exact Hplan |].
  split; [exact Hrel |].
  unfold serve_production, bind. rewrite Hplan.
  unfold try_finally, arbiter_start. cbn [plan_uds_path assemble_plan]. run_M.
  destruct (arbiter_outcome env); simpl;
    (split; [ reflexivity |]); simpl; rewrite Hrel; auto.
Qed.

Lemma serve_production_windows_witness :
  exists w',
    serve_production Demo.windows_env Demo.args0 Demo.two_runners Demo.world0
      = (Ok tt, w') /\
    ports_in_use w' = [].
Proof.
  destruct (serve_production_windows
              Demo.windows_env Demo.args0 Demo.two_runners Demo.world0)
    as [plan [w2 [w' [_ [_ [Hserve [_ [_ Hports]]]]]]]].
  - reflexivity.
  - apply demo_free_port_fresh.
  - intros p. reflexivity.
  - exists w'. split; [exact Hserve | exact Hports].
Defined.

(** ** Addresses, sockets and watchers of a production plan *)

Lemma dict_get_In_values {V : Type} (k : string) (v : V) (d : dict V) :
  dict_get k d = Some v -> In v (dict_values d).
Proof.
  unfold dict_values. induction d as [| [k' v'] d IH]; simpl; [discriminate |].
  destruct (String.eqb k k'); intros H; [injection H as ->; auto | auto].
Qed.

Lemma dict_get_of_key {V : Type} (k : string) (d : dict V) :
  In k (dict_keys d) -> dict_get k d <> None.
Proof.
  unfold dict_keys. induction d as [| [k' v'] d IH]; simpl; [tauto |].
  destruct (String.eqb k k') eqn:E; [discriminate |].
  intros [H | H]; [subst; rewrite String.eqb_refl in E; discriminate | auto].
Qed.

Lemma add_keys_In (names ks : list string) (x : string) :
  In x (add_keys ks names) <-> In x ks \/ In x names.
Proof.
  revert ks. induction names as [| n names IH]; intros ks; simpl.
  - unfold add_keys. simpl. tauto.
  - unfold add_keys in *. simpl. rewrite IH, add_key_In.
    intuition (subst; auto).
Qed.

(** Two dictionaries that a loop fills under the same keys stay paired:
    under every key both are empty, or both hold what one and the same
    element of the list gave. *)
Lemma dict_set_all_lockstep {A V1 V2 : Type}
    (key : A -> string) (f : A -> V1) (g : A -> V2)
    (l : list A) (n : string) (d1 : dict V1) (d2 : dict V2) :
  ((dict_get n d1 = None /\ dict_get n d2 = None) \/
   exists x, key x = n /\ dict_get n d1 = Some (f x) /\ dict_get n d2 = Some (g x)) ->
  (dict_get n (dict_set_all (map (fun x => (key x, f x)) l) d1) = None /\
   dict_get n (dict_set_all (map (fun x => (key x, g x)) l) d2) = None) \/
  exists x, key x = n /\
    dict_get n (dict_set_all (map (fun x => (key x, f x)) l) d1) = Some (f x) /\
    dict_get n (dict_set_all (map (fun x => (key x, g x)) l) d2) = Some (g x).
Proof.
  revert d1 d2. induction l as [| y l IH]; intros d1 d2 Hpair; simpl; auto.
  unfold dict_set_all in *. simpl. apply IH.
  destruct (string_dec n (key y)) as [-> | Hne].
  - right. exists y. rewrite !dict_get_set_same. auto.
  - rewrite !dict_get_set_other by assumption. exact Hpair.
Qed.

(** The same for a plan: an address under a runner name belongs to a socket
    of that name. *)
Lemma assemble_plan_addresses {A : Type}
    (env : Env) (a : ServeArgs) (pd : string) (uds : option string)
    (key : A -> string) (f : A -> CircusSocket) (g : A -> string)
    (l : list A) (ws : list Watcher) (n addr : string) :
  (forall x, sock_name (f x) = key x) ->
  (forall x, address_of_socket env (f x) = g x) ->
  n <> API_SERVER_NAME ->
  dict_get n
    (plan_runner_bind_map
       (assemble_plan env a pd uds (map (fun x => (key x, f x)) l)
          (map (fun x => (key x, g x)) l) ws)) = Some addr ->
  exists s,
    In s (arb_sockets
            (plan_arbiter
               (assemble_plan env a pd uds (map (fun x => (key x, f x)) l)
                  (map (fun x => (key x, g x)) l) ws))) /\
    sock_name s = n /\ address_of_socket env s = addr.
Proof.
  intros Hname Haddr Hne Hget. cbn [assemble_plan plan_runner_bind_map] in Hget.
  cbn [assemble_plan plan_arbiter arb_sockets].
  destruct (dict_set_all_lockstep key f g l n [] [] (or_introl (conj eq_refl eq_refl)))
    as [[_ Hnone] | [x [Hk [Hs Hb]]]].
  - rewrite Hnone in Hget. discriminate.
  - rewrite Hb in Hget. injection Hget as <-.
    exists (f x). split; [| split; [now rewrite Hname | apply Haddr]].
    apply dict_get_In_values with (k := n).
    now rewrite dict_get_set_other.
Qed.

Lemma find_snoc {A : Type} (f : A -> bool) (l : list A) (y : A) :
  find f (l ++ [ y ]) =
  match find f l with
  | Some x => Some x
  | None => if f y then Some y else None
  end.
Proof.
  induction l as [| x l IH]; simpl; [reflexivity |].
  destruct (f x); auto.
Qed.

(** After a loop has stored every element of a list under its key, a key
    holds what the last element with that key gave. *)
Lemma dict_set_all_last {A V : Type}
    (key : A -> string) (f : A -> V) (l : list A) (n : string) (d : dict V) :
  dict_get n (dict_set_all (map (fun x => (key x, f x)) l) d) =
  match last_named key n l with
  | Some x => Some (f x)
  | None => dict_get n d
  end.
Proof.
  unfold last_named, dict_set_all. revert d.
  induction l as [| y l IH]; intros d; simpl; [reflexivity |].
  rewrite IH, find_snoc.
  destruct (find (fun x => String.eqb n (key x)) (rev l)); [reflexivity |].
  destruct (String.eqb n (key y)) eqn:E.
  - apply String.eqb_eq in E. subst n. apply dict_get_set_same.
  - apply String.eqb_neq in E. now apply dict_get_set_other.
Qed.

(** The same for a plan: under a runner name, the address in the runner map
    and a socket of the plan both come from the last element of that
    name. *)
Lemma assemble_plan_last {A : Type}
    (env : Env) (a : ServeArgs) (pd : string) (uds : option string)
    (key : A -> string) (f : A -> CircusSocket) (g : A -> string)
    (l : list A) (ws : list Watcher) (n : string) :
  n <> API_SERVER_NAME ->
  match last_named key n l with
  | Some x =>
      dict_get n
        (plan_runner_bind_map
           (assemble_plan env a pd uds (map (fun x => (key x, f x)) l)
              (map (fun x => (key x, g x)) l) ws)) = Some (g x) /\
      In (f x)
        (arb_sockets
           (plan_arbiter
              (assemble_plan env a pd uds (map (fun x => (key x, f x)) l)
                 (map (fun x => (key x, g x)) l) ws)))
  | None =>
      dict_get n
        (plan_runner_bind_map
           (assemble_plan env a pd uds (map (fun x => (key x, f x)) l)
              (map (fun x => (key x, g x)) l) ws)) = None
  end.
Proof.
  intros Hne. cbn [assemble_plan plan_runner_bind_map plan_arbiter arb_sockets].
  pose proof (dict_set_all_last key f l n []) as Hs.
  pose proof (dict_set_all_last key g l n []) as Hb.
  destruct (last_named key n l) as [x |]; [| exact Hb].
  split; [exact Hb |].
  apply dict_get_In_values with (k := n).
  now rewrite dict_get_set_other.
Qed.

(** X9. In a production plan every runner has an address in the runner
    map, and every address in the runner map, under a name other than the
    API server's socket name, is the address of a socket of the plan that
    carries this name: the address string and the socket are made from the
    same path, or from the same host and port. Under such a name the
    address and a socket of the plan are those of the last runner of that
    name, on Windows with the port reserved for it; a name that no runner
    has is not in the map. *)
Theorem runner_address_matches_socket
    (env : Env) (a : ServeArgs) (svc : Service) (w : World) :
  allocation_possible env svc w ->
  let w1 := snd (ensure_prometheus_dir env w) in
  let uds := mkdtemp_name env (fs w1) in
  let ports := runner_ports env svc (ports_in_use w1) in
  exists plan w',
    plan_production env a svc w = (Ok plan, w') /\
    (forall r, In r (runners svc) ->
               dict_get (name r) (plan_runner_bind_map plan) <> None) /\
    (forall n addr,
        dict_get n (plan_runner_bind_map plan) = Some addr ->
        n <> API_SERVER_NAME ->
        exists s,
          In s (arb_sockets (plan_arbiter plan)) /\
          sock_name s = n /\
          address_of_socket env s = addr) /\
    (forall n,
        n <> API_SERVER_NAME ->
        match platform env with
        | POSIX =>
            match last_named name n (runners svc) with
            | Some r =>
                dict_get n (plan_runner_bind_map plan)
                  = Some (path_to_uri env (sockets_path_of uds r)) /\
                In (posix_socket a uds r) (arb_sockets (plan_arbiter plan))
            | None => dict_get n (plan_runner_bind_map plan) = None
            end
        | _ =>
            List.length ports = List.length (runners svc) /\
            match last_named (fun rp : Runner * Z => name (fst rp)) n
                    (combine (runners svc) ports) with
            | Some rp =>
                dict_get n (plan_runner_bind_map plan) = Some (windows_address rp) /\
                In (windows_socket a rp) (arb_sockets (plan_arbiter plan))
            | None => dict_get n (plan_runner_bind_map plan) = None
            end
        end).
Proof.
  intros [Hpf [Hshort Hmk]] w1 uds ports. subst uds ports w1.
  destruct (ensure_total env w Hmk) as [pd [w1 [Hens _]]].
  rewrite Hens in *. simpl in *.
  destruct (platform env) eqn:Hp; [| | congruence].
  - specialize (Hshort eq_refl).
    do 2 eexists.
    split; [apply (plan_production_posix env a svc w w1 pd); auto; apply Hmk |].
    split; [| split].
    + intros r Hr. cbn [assemble_plan plan_runner_bind_map].
      apply dict_get_of_key. rewrite dict_set_all_keys, add_keys_In.
      right. rewrite map_map. simpl. now apply in_map.
    + intros n addr Hget Hne.
      apply (assemble_plan_addresses env a pd _ name
               (posix_socket a (mkdtemp_name env (fs w1)))
               (fun r => path_to_uri env
                           (sockets_path_of (mkdtemp_name env (fs w1)) r)));
        auto.
    + intros n Hne.
      apply (assemble_plan_last env a pd _ name
               (posix_socket a (mkdtemp_name env (fs w1)))
               (fun r => path_to_uri env
                           (sockets_path_of (mkdtemp_name env (fs w1)) r)));
        auto.
  - do 2 eexists. split; [apply plan_production_windows; eauto |].
    assert (Hlen : List.length (runners svc)
                   = List.length (runner_ports env svc (ports_in_use w1))).
    { unfold runner_ports. now rewrite reserve_seq_length. }
    split; [| split].
    + intros r Hr. cbn [assemble_plan plan_runner_bind_map].
      apply dict_get_of_key. rewrite dict_set_all_keys, add_keys_In.
      right. rewrite map_map. simpl.
      rewrite <- (map_map fst name), (map_fst_combine _ _ Hlen).
      now apply in_map.
    + intros n addr Hget Hne.
      apply (assemble_plan_addresses env a pd _
               (fun rp : Runner * Z => name (fst rp))
               (windows_socket a) windows_address); auto.
    + intros n Hne. split; [now symmetry |].
      apply (assemble_plan_last env a pd _
               (fun rp : Runner * Z => name (fst rp))
               (windows_socket a) windows_address); auto.
Qed.

Lemma runner_address_matches_socket_witness :
  exists plan w',
    plan_production Demo.posix_env Demo.args0 Demo.same_name_runners Demo.world0
      = (Ok plan, w') /\
    dict_get "embedder" (plan_runner_bind_map plan)
      = Some "file:///tmp/tmpaaaaaaaaaaaaa/140002.sock" /\
    exists s,
      In s (arb_sockets (plan_arbiter plan)) /\
      sock_name s = "embedder" /\
      address_of_socket Demo.posix_env s
        = "file:///tmp/tmpaaaaaaaaaaaaa/140002.sock".
Proof.
  destruct (runner_address_matches_socket
              Demo.posix_env Demo.args0 Demo.same_name_runners Demo.world0)
    as [plan [w' [Hplan [_ [Hmatch Hlast]]]]].
  - split; [discriminate |].
    split; [intros _; vm_compute; repeat constructor | intros p; reflexivity].
  - pose proof (Hlast "embedder" ltac:(discriminate)) as [Haddr _].
    exists plan, w'. split; [exact Hplan |]. split; [exact Haddr |].
    apply Hmatch; [exact Haddr | discriminate].
Defined.

Lemma dict_set_In {V : Type} (k k0 : string) (v v0 : V) (d : dict V) :
  In (k0, v0) (dict_set k v d) -> (k0, v0) = (k, v) \/ In (k0, v0) d.
Proof.
  induction d as [| [k' v'] d IH]; simpl.
  - intros [H | []]; auto.
  - destruct (String.eqb k k'); simpl; intros [H | H]; auto.
    destruct (IH H); auto.
Qed.

Lemma dict_set_all_In {V : Type} (kvs : list (string * V)) (k0 : string) (v0 : V)
    (d : dict V) :
  In (k0, v0) (dict_set_all kvs d) -> In (k0, v0) kvs \/ In (k0, v0) d.
Proof.
  revert d. induction kvs as [| [k v] kvs IH]; intros d; simpl; auto.
  unfold dict_set_all in *. simpl. intros Hin.
  destruct (IH _ Hin) as [H | H]; auto.
  apply dict_set_In in H. destruct H as [H | H]; auto.
Qed.

(** When every socket is stored under its own name, the names of the
    sockets are the keys. *)
Lemma socket_names_are_keys (d : dict CircusSocket) :
  (forall k s, In (k, s) d -> sock_name s = k) ->
  map sock_name (dict_values d) = dict_keys d.
Proof.
  unfold dict_values, dict_keys.
  induction d as [| [k s] d IH]; simpl; intros Hnamed; auto.
  rewrite (Hnamed k s) by auto. f_equal. apply IH.
  intros k0 s0 Hin. apply Hnamed. auto.
Qed.

Lemma assemble_plan_socket_names
    (env : Env) (a : ServeArgs) (pd : string) (uds : option string)
    (socks : list (string * CircusSocket)) (binds : list (string * string))
    (ws : list Watcher) :
  (forall k s, In (k, s) socks -> sock_name s = k) ->
  map sock_name (arb_sockets (plan_arbiter (assemble_plan env a pd uds socks binds ws)))
  = add_key (add_keys [] (map fst socks)) API_SERVER_NAME.
Proof.
  intros Hnamed. cbn [assemble_plan plan_arbiter arb_sockets].
  rewrite socket_names_are_keys.
  - now rewrite dict_keys_set, dict_set_all_keys.
  - intros k s Hin. apply dict_set_In in Hin. destruct Hin as [Heq | Hin].
    + injection Heq as -> ->. reflexivity.
    + apply dict_set_all_In in Hin. destruct Hin as [Hin | []]. auto.
Qed.

Lemma runner_watcher_bind
    (env : Env) (a : ServeArgs) (wd : string) (r : Runner)
    (extra : list string) (wid : string) :
  dict_get "--bind" (options_of_args (w_args (runner_watcher env a wd r extra wid)))
  = Some (fd_uri (name r)).
Proof. reflexivity. Qed.

(** X10. In a production plan every watcher is given its socket as the
    supervisor's descriptor of a socket that is part of the plan: the value
    of its [--bind] option is [fd://$(circus.sockets.NAME)] for the name of
    one of the plan's sockets, never an address, and the watcher is run
    with the sockets attached. *)
Theorem production_watchers_bind_by_descriptor
    (env : Env) (a : ServeArgs) (svc : Service) (w : World) :
  allocation_possible env svc w ->
  exists plan w',
    plan_production env a svc w = (Ok plan, w') /\
    forall wt,
      In wt (arb_watchers (plan_arbiter plan)) ->
      exists n,
        In n (map sock_name (arb_sockets (plan_arbiter plan))) /\
        dict_get "--bind" (options_of_args (w_args wt)) = Some (fd_uri n) /\
        w_use_sockets wt = true.
Proof.
  intros [Hpf [Hshort Hmk]].
  destruct (ensure_total env w Hmk) as [pd [w1 [Hens _]]].
  rewrite Hens in Hshort. simpl in Hshort.
  assert (Hapi : forall bm,
            dict_get "--bind"
              (options_of_args
                 (w_args (api_watcher env a pd bm))) = Some (fd_uri API_SERVER_NAME)).
  { intros bm. unfold api_watcher. cbn [w_args].
    rewrite api_server_options. reflexivity. }
  destruct (platform env) eqn:Hp; [| | congruence].
  - specialize (Hshort eq_refl).
    do 2 eexists. split; [apply (plan_production_posix env a svc w w1 pd); auto; apply Hmk |].
    intros wt Hin. rewrite assemble_plan_socket_names.
    2:{ intros k s Hks. apply in_map_iff in Hks.
        destruct Hks as [r [Heq _]]. injection Heq as <- <-. reflexivity. }
    cbn [assemble_plan plan_arbiter arb_watchers] in Hin.
    apply in_app_or in Hin. destruct Hin as [Hin | [<- | []]].
    + apply in_map_iff in Hin. destruct Hin as [r [<- Hr]].
      exists (name r). split; [| split; [apply runner_watcher_bind | reflexivity]].
      apply add_key_In. left. apply add_keys_In. right.
      rewrite map_map. simpl. now apply in_map.
    + exists API_SERVER_NAME. split; [| split; [apply Hapi | reflexivity]].
      apply add_key_In. now right.
  - assert (Hlen : List.length (runners svc)
                   = List.length (runner_ports env svc (ports_in_use w1))).
    { unfold runner_ports. now rewrite reserve_seq_length. }
    do 2 eexists. split; [apply plan_production_windows; eauto |].
    intros wt Hin. rewrite assemble_plan_socket_names.
    2:{ intros k s Hks. apply in_map_iff in Hks.
        destruct Hks as [rp [Heq _]]. injection Heq as <- <-. reflexivity. }
    cbn [assemble_plan plan_arbiter arb_watchers] in Hin.
    apply in_app_or in Hin. destruct Hin as [Hin | [<- | []]].
    + apply in_map_iff in Hin. destruct Hin as [r [<- Hr]].
      exists (name r). split; [| split; [apply runner_watcher_bind | reflexivity]].
      apply add_key_In. left. apply add_keys_In. right.
      rewrite map_map. simpl.
      rewrite <- (map_map fst name), (map_fst_combine _ _ Hlen).
      now apply in_map.
    + exists API_SERVER_NAME. split; [| split; [apply Hapi | reflexivity]].
      apply add_key_In. now right.
Qed.

Lemma production_watchers_bind_by_descriptor_witness :
  exists plan w',
    plan_production Demo.windows_env Demo.args0 Demo.two_runners Demo.world0
      = (Ok plan, w') /\
    map (fun wt => dict_get "--bind" (options_of_args (w_args wt)))
      (arb_watchers (plan_arbiter plan))
    = [ Some (fd_uri "embedder"); Some (fd_uri "classifier");
        Some (fd_uri "_bento_api_server") ].
Proof.
  destruct (production_watchers_bind_by_descriptor
              Demo.windows_env Demo.args0 Demo.two_runners Demo.world0)
    as [plan [w' [Hplan _]]].
  - split; [discriminate |].
    split; [intros Hpf; vm_compute in Hpf; discriminate Hpf | intros p; reflexivity].
  - exists plan, w'. split; [exact Hplan |].
    vm_compute in Hplan. injection Hplan as <- _. reflexivity.
Defined.

(** ** The length of a socket path *)

Lemma str_of_Z_not_absolute (n : Z) (suffix : string) :
  starts_with_slash (str_of_Z n ++ suffix) = false.
Proof.
  unfold str_of_Z. destruct (Z.to_int n) as [u | u]; [| reflexivity].
  destruct u; reflexivity.
Qed.

Lemma len_append (s1 s2 : string) : len (s1 ++ s2) = len s1 + len s2.
Proof. unfold len. rewrite string_length_append. lia. Qed.

(** X11. The socket path of a runner is the temporary directory, a slash
    unless the directory already ends with one, the decimal [id] of the
    runner and [.sock]. So the length check of the POSIX branch passes for a
    runner exactly when the directory name, the separator and the digits of
    the [id] together have fewer than 98 characters. *)
Theorem sockets_path_length (uds_path : string) (r : Runner) :
  let sep := if orb (String.eqb uds_path EmptyString) (ends_with_slash uds_path)
             then 0 else 1 in
  len (sockets_path_of uds_path r)
    = len uds_path + sep + len (str_of_Z (runner_id r)) + 5 /\
  (short_path uds_path r <->
   len uds_path + sep + len (str_of_Z (runner_id r)) < 98).
Proof.
  intros sep.
  assert (Hlen : len (sockets_path_of uds_path r)
                 = len uds_path + sep + len (str_of_Z (runner_id r)) + 5).
  { unfold sockets_path_of, os_path_join, sep.
    rewrite str_of_Z_not_absolute.
    destruct (orb (String.eqb uds_path EmptyString) (ends_with_slash uds_path));
      rewrite !len_append; change (len ".sock") with 5;
      try change (len "/") with 1; lia. }
  split; [exact Hlen |].
  unfold short_path, MAX_AF_UNIX_PATH_LENGTH. rewrite Hlen. lia.
Qed.

(** ** [main] without a worker id, and the options of the HTTP server *)




Lemma uvicorn_base_options (bl : Z) (s : SSL) :
  dict_get "backlog" (HttpApiServer.uvicorn_options_of bl s) = Some (PyInt bl) /\
  dict_get "log_config" (HttpApiServer.uvicorn_options_of bl s) = Some PyNone /\
  dict_get "workers" (HttpApiServer.uvicorn_options_of bl s) = Some (PyInt 1) /\
  dict_get "loop" (HttpApiServer.uvicorn_options_of bl s) = None.
Proof.
  unfold HttpApiServer.uvicorn_options_of.
  repeat split;
    repeat first
      [ rewrite get_set_if_truthy_str_other by discriminate
      | rewrite get_set_if_truthy_int_other by discriminate ];
    reflexivity.
Qed.

Lemma uvicorn_ssl_lookup (bl : Z) (s : SSL) (key : string) (value : option pyval) :
  In (key, value) (uvicorn_ssl_values s) ->
  dict_get key (HttpApiServer.uvicorn_options_of bl s) = value /\ key <> "loop".
Proof.
  intros Hin. unfold uvicorn_ssl_values in Hin. simpl in Hin.
  unfold HttpApiServer.uvicorn_options_of.
  repeat (destruct Hin as [Hin | Hin];
          [ injection Hin as Hf Hv; subst key value;
            split; [ lookup_option | discriminate ] |]).
  contradiction.
Qed.

(** The option dictionary a worker runs the server with. *)
Lemma leaf_worker_run_options
    (env : Env) (lib : HttpApiServer.Lib) (p : HttpApiServer.MainParams)
    (wid : Z) (w : World) :
  HttpApiServer.worker_id p = Some wid ->
  exists r w' evs,
    HttpApiServer.main env lib p w = (r, w') /\
    trace w' = trace w ++ evs /\
    forall options fd,
      In (EvUvicornRun options fd) evs ->
      options =
        match platform env with
        | WINDOWS =>
            dict_set "loop" (PyStr "asyncio")
              (HttpApiServer.uvicorn_options_of (HttpApiServer.backlog p)
                 (HttpApiServer.ssl p))
        | _ =>
            HttpApiServer.uvicorn_options_of (HttpApiServer.backlog p)
              (HttpApiServer.ssl p)
        end.
Proof.
  intros Hwid.
  unfold HttpApiServer.main, HttpApiServer.main_worker.
  rewrite Hwid. run_M.
  destruct (HttpApiServer.prometheus_dir p) as [d |];
    destruct (HttpApiServer.runner_map p) as [m |];
    try destruct (HttpApiServer.json_loads lib m) as [decoded |];
    simpl;
    destruct (platform env); simpl;
    destruct (String.eqb
                (HttpApiServer.scheme
                   (HttpApiServer.urlparse lib (HttpApiServer.bind_uri p)))
                "fd");
    try destruct (HttpApiServer.py_int lib
                    (HttpApiServer.netloc
                       (HttpApiServer.urlparse lib (HttpApiServer.bind_uri p))))
      as [fd |];
    simpl;
    do 2 eexists; leaf_trace;
    intros options fd0 Hin; simpl in Hin;
    repeat (destruct Hin as [Hin | Hin]; try discriminate Hin);
    try contradiction;
    injection Hin as <- _; reflexivity.
Qed.

(** X13. Whenever a worker runs the HTTP server, the option dictionary holds
    the backlog it was given, no log configuration and one worker, whatever
    the TLS parameters are; it asks for the asyncio loop on Windows and for
    no particular loop elsewhere; and each of the seven TLS keys holds the
    parameter when that is truthy and is missing otherwise. *)
Theorem leaf_worker_server_options
    (env : Env) (lib : HttpApiServer.Lib) (p : HttpApiServer.MainParams)
    (wid : Z) (w : World) :
  HttpApiServer.worker_id p = Some wid ->
  exists r w' evs,
    HttpApiServer.main env lib p w = (r, w') /\
    trace w' = trace w ++ evs /\
    forall options fd,
      In (EvUvicornRun options fd) evs ->
      dict_get "backlog" options = Some (PyInt (HttpApiServer.backlog p)) /\
      dict_get "log_config" options = Some PyNone /\
      dict_get "workers" options = Some (PyInt 1) /\
      dict_get "loop" options =
        match platform env with
        | WINDOWS => Some (PyStr "asyncio")
        | _ => None
        end /\
      (forall key value,
          In (key, value) (uvicorn_ssl_values (HttpApiServer.ssl p)) ->
          dict_get key options = value).
Proof.
  intros Hwid.
  destruct (leaf_worker_run_options env lib p wid w Hwid)
    as [r [w' [evs [Hmain [Htrace Hopts]]]]].
  exists r, w', evs. split; [exact Hmain |]. split; [exact Htrace |].
  intros options fd Hin. specialize (Hopts options fd Hin).
  destruct (uvicorn_base_options (HttpApiServer.backlog p) (HttpApiServer.ssl p))
    as [Hb [Hl [Hw Hloop]]].
  destruct (platform env); subst options;
    rewrite ?dict_get_set_other by discriminate;
    rewrite ?dict_get_set_same;
    (repeat split; auto);
    intros key value Hkv;
    destruct (uvicorn_ssl_lookup (HttpApiServer.backlog p) (HttpApiServer.ssl p)
                key value Hkv) as [Hget Hne];
    rewrite ?dict_get_set_other by assumption; exact Hget.
Qed.

Lemma leaf_worker_server_options_witness :
  exists w',
    HttpApiServer.main Demo.windows_env Demo.lib (Demo.worker_params "fd://7")
      Demo.world0 = (Ok tt, w') /\
    exists options,
      In (EvUvicornRun options 7) (trace w') /\
      dict_get "loop" options = Some (PyStr "asyncio") /\
      dict_get "workers" options = Some (PyInt 1).
Proof.
  destruct (leaf_worker_server_options Demo.windows_env Demo.lib
              (Demo.worker_params "fd://7") 1 Demo.world0 eq_refl)
    as [r [w' [evs [Hmain [Htrace Hopts]]]]].
  pose proof Hmain as Hrun. vm_compute in Hrun. injection Hrun as Hr Hw.
  exists w'. split; [now rewrite Hmain, <- Hr |].
  subst w'. simpl in Htrace. subst evs.
  eexists. split; [simpl; right; right; left; reflexivity |].
  edestruct Hopts as [_ [_ [Hwk [Hl _]]]];
    [ simpl; right; right; left; reflexivity |].
  split; [exact Hl | exact Hwk].
Defined.

(** X16. A worker leaves the file system and the ports alone: with a worker
    id, [main] makes, cleans and removes no directory, whatever happens to
    the run. The container names the directory given as [--prometheus-dir],
    or keeps its value when none is given. *)
Theorem leaf_worker_leaves_file_system
    (env : Env) (lib : HttpApiServer.Lib) (p : HttpApiServer.MainParams)
    (wid : Z) (w : World) :
  HttpApiServer.worker_id p = Some wid ->
  exists r w',
    HttpApiServer.main env lib p w = (r, w') /\
    fs w' = fs w /\
    ports_in_use w' = ports_in_use w /\
    prometheus_multiproc_dir w' =
      match HttpApiServer.prometheus_dir p with
      | Some d => d
      | None => prometheus_multiproc_dir w
      end.
Proof.
  intros Hwid.
  unfold HttpApiServer.main, HttpApiServer.main_worker.
  rewrite Hwid. run_M.
  destruct (HttpApiServer.prometheus_dir p) as [d |];
    destruct (HttpApiServer.runner_map p) as [m |];
    try destruct (HttpApiServer.json_loads lib m) as [decoded |];
    simpl;
    destruct (platform env); simpl;
    destruct (String.eqb
                (HttpApiServer.scheme
                   (HttpApiServer.urlparse lib (HttpApiServer.bind_uri p)))
                "fd");
    try destruct (HttpApiServer.py_int lib
                    (HttpApiServer.netloc
                       (HttpApiServer.urlparse lib (HttpApiServer.bind_uri p))))
      as [fd |];
    simpl;
    do 2 eexists; (split; [ reflexivity |]); repeat split.
Qed.

Lemma leaf_worker_leaves_file_system_witness :
  exists r w',
    HttpApiServer.main Demo.posix_env Demo.lib (Demo.worker_params "fd://7")
      Demo.world_stale = (r, w') /\
    fs w' = fs Demo.world_stale.
Proof.
  destruct (leaf_worker_leaves_file_system Demo.posix_env Demo.lib
              (Demo.worker_params "fd://7") 1 Demo.world_stale eq_refl)
    as [r [w' [Hmain [Hfs _]]]].
  exists r, w'. split; [exact Hmain | exact Hfs].
Defined.

(** ** [serve_development] *)

Lemma present_options_lookup (s : SSL) (flag : string) (value : option string) :
  In (flag, value) (ssl_options s) ->
  dict_get flag (present_options (ssl_options s)) = value.
Proof.
  intros Hin. destruct s as [o1 o2 o3 o4 o5 o6 o7].
  unfold ssl_options in *.
  cbn [ssl_keyfile ssl_certfile ssl_keyfile_password ssl_version
       ssl_cert_reqs ssl_ca_certs ssl_ciphers] in *.
  simpl in Hin.
  repeat (destruct Hin as [Hin | Hin];
          [ injection Hin as Hf Hv; subst flag value;
            destruct o1, o2, o3, o4, o5, o6, o7; reflexivity |]).
  contradiction.
Qed.

(** X14. The development server forwards the TLS parameters the way the
    production server does: after the fixed options its watcher's options
    are the flag and value of exactly the parameters that are not [None],
    the same list the production API server gets, and looking a TLS flag up
    there gives the parameter. *)
Theorem development_ssl_options_forwarded
    (env : Env) (a : ServeArgs) (wd pd : string) (bind_map : dict string) :
  skipn 3 (options_of_args (dev_api_server_watcher_args a wd pd))
    = present_options (ssl_options (ssl a)) /\
  skipn 3 (options_of_args (dev_api_server_watcher_args a wd pd))
    = skipn 6 (options_of_args (api_server_watcher_args env a wd pd bind_map)) /\
  (forall flag value,
      In (flag, value) (ssl_options (ssl a)) ->
      dict_get flag
        (skipn 3 (options_of_args (dev_api_server_watcher_args a wd pd)))
      = value).
Proof.
  assert (Hdev : skipn 3 (options_of_args (dev_api_server_watcher_args a wd pd))
                 = present_options (ssl_options (ssl a))).
  { unfold dev_api_server_watcher_args, options_of_args.
    rewrite add_ssl_args_app.
    remember (present_options (ssl_options (ssl a))) as tls eqn:Htls.
    simpl. now rewrite flag_pairs_flatten. }
  split; [exact Hdev |]. split.
  - rewrite Hdev, api_server_options. reflexivity.
  - intros flag value Hin. rewrite Hdev. now apply present_options_lookup.
Qed.

(** X15. With [tempfile.mkdtemp] not refused, development serving resolves
    the metrics directory, starts one supervisor with one watcher and ends
    the way the supervisor ended. It
    reserves no port and makes or removes no directory of its own. The
    reloader plugin is passed exactly when [reload] is set, with the resolved
    working directory and the BentoML home. *)
Theorem serve_development_runs_one_supervisor
    (env : Env) (a : ServeArgs) (svc : Service) (w : World) :
  mkdtemp_allowed env ->
  exists arb w',
    serve_development env a svc w =
      (match arbiter_outcome env with None => Ok tt | Some e => Raise e end, w') /\
    trace w' = trace (snd (ensure_prometheus_dir env w)) ++ [ EvArbiterStart arb ] /\
    fs w' = fs (snd (ensure_prometheus_dir env w)) /\
    ports_in_use w' = ports_in_use w /\
    List.length (arb_watchers arb) = 1%nat /\
    arb_plugins arb =
      (if reload a
       then [ {| plugin_use :=
                   "bentoml._internal.utils.circus.watchfilesplugin.ServiceReloaderPlugin";
                 plugin_working_dir := realpath_expanduser env (working_dir a);
                 plugin_bentoml_home := bentoml_home a |} ]
       else []).
Proof.
  intros Hmk.
  destruct (ensure_total env w Hmk) as [pd [w1 [Hens [Hports _]]]].
  unfold serve_development, plan_development, bind. rewrite Hens.
  unfold ret, arbiter_start. run_M.
  destruct (arbiter_outcome env); simpl;
    do 2 eexists; (split; [ reflexivity |]); simpl; repeat split; auto.
Qed.

Lemma serve_development_runs_one_supervisor_witness :
  exists arb w',
    serve_development Demo.posix_env Demo.args0 Demo.two_runners Demo.world0
      = (Ok tt, w') /\
    List.length (arb_watchers arb) = 1%nat /\
    arb_plugins arb = [].
Proof.
  destruct (serve_development_runs_one_supervisor
              Demo.posix_env Demo.args0 Demo.two_runners Demo.world0
              (fun p => eq_refl))
    as [arb [w' [Hserve [_ [_ [_ [Hlen Hplug]]]]]]].
  exists arb, w'. split; [exact Hserve |]. split; [exact Hlen | exact Hplug].
Defined.

(** ** When the fallback of [ensure_prometheus_dir] is taken *)

(** X17. With the defaults the call returns the configured directory
    exactly when the path can be used as it is found: then no temporary
    directory is made, nothing is warned about and the container keeps its
    value. In every other case the fallback is taken: when
    [tempfile.mkdtemp] is not refused, a new temporary directory is returned
    and stored in the container, and the warning that names both
    directories is the last event; when it is refused, its error is
    raised. *)
Theorem ensure_prometheus_dir_fallback_cases (env : Env) (w : World) :
  (configured_dir_usable env w = true ->
   exists w',
     ensure_prometheus_dir env w
       = (Ok (absolute env (prometheus_multiproc_dir w)), w') /\
     prometheus_multiproc_dir w' = prometheus_multiproc_dir w /\
     only_cleanup_events w w') /\
  (configured_dir_usable env w = false ->
   exists w1,
     only_cleanup_events w w1 /\
     match fs_fault env OpMkdtemp (mkdtemp_name env (fs w1)) with
     | None =>
         exists w',
           ensure_prometheus_dir env w = (Ok (mkdtemp_name env (fs w1)), w') /\
           prometheus_multiproc_dir w' = mkdtemp_name env (fs w1) /\
           trace w' = trace w1 ++ [ EvMkdtemp (mkdtemp_name env (fs w1));
                                    EvWarning (prometheus_multiproc_dir w)
                                      (mkdtemp_name env (fs w1)) ]
     | Some k => ensure_prometheus_dir env w = (Raise (OSError k), w1)
     end).
Proof.
  unfold configured_dir_usable, allowed.
  destruct (ensure_try_outcomes env (prometheus_multiproc_dir w) true w)
    as [r [w1 [Htry [Hpm [_ [Hev Hr]]]]]].
  assert (Hcase :
    match r with
    | Ok _ =>
        match dict_get (absolute env (prometheus_multiproc_dir w)) (fs w) with
        | None => fs_fault env OpMkdir (absolute env (prometheus_multiproc_dir w)) = None
        | Some File => False
        | Some (Dir []) =>
            fs_fault env OpIterdir (absolute env (prometheus_multiproc_dir w)) = None
        | Some (Dir (_ :: _)) =>
            fs_fault env OpIterdir (absolute env (prometheus_multiproc_dir w)) = None /\
            fs_fault env OpRmtree (absolute env (prometheus_multiproc_dir w)) = None /\
            fs_fault env OpMkdir (absolute env (prometheus_multiproc_dir w)) = None
        end
    | Raise _ =>
        match dict_get (absolute env (prometheus_multiproc_dir w)) (fs w) with
        | None => fs_fault env OpMkdir (absolute env (prometheus_multiproc_dir w)) <> None
        | Some File => True
        | Some (Dir []) =>
            fs_fault env OpIterdir (absolute env (prometheus_multiproc_dir w)) <> None
        | Some (Dir (_ :: _)) =>
            ~ (fs_fault env OpIterdir (absolute env (prometheus_multiproc_dir w)) = None /\
               fs_fault env OpRmtree (absolute env (prometheus_multiproc_dir w)) = None /\
               fs_fault env OpMkdir (absolute env (prometheus_multiproc_dir w)) = None)
        end
    end).
  { revert Htry. clear.
    unfold ensure_prometheus_dir_try, path_exists, path_is_dir, any_iterdir,
      rmtree, mkdir. run_M.
    destruct (dict_get (absolute env (prometheus_multiproc_dir w)) (fs w))
      as [[| [| x xs]] |] eqn:Hget;
      repeat (simpl; rewrite ?Hget, ?dict_get_del_same; simpl;
              match goal with
              | |- context [fs_fault env ?op ?p] =>
                  destruct (fs_fault env op p) eqn:?
              end);
      simpl; rewrite ?Hget, ?dict_get_del_same; simpl;
      intros Htry; injection Htry as <- _; auto;
      try discriminate; try (intros [? [? ?]]; discriminate). }
  destruct r as [p | e].
  - destruct Hr as [-> _]. apply ensure_direct in Htry. split.
    + intros _. eauto.
    + intros Hfalse. exfalso.
      destruct (dict_get (absolute env (prometheus_multiproc_dir w)) (fs w))
        as [[| [| x xs]] |]; try contradiction;
        first
          [ destruct Hcase as (H1 & H2 & H3); rewrite H1, H2, H3 in Hfalse
          | rewrite Hcase in Hfalse ];
        discriminate.
  - destruct e as [k | | msg | | | |]; try contradiction;
      [| destruct Hr as [Hfalse _]; discriminate ].
    split.
    + intros Htrue. exfalso.
      destruct (dict_get (absolute env (prometheus_multiproc_dir w)) (fs w))
        as [[| [| x xs]] |]; try discriminate.
      * destruct (fs_fault env OpIterdir _); [discriminate | now apply Hcase].
      * apply Hcase.
        destruct (fs_fault env OpIterdir _); [discriminate |].
        destruct (fs_fault env OpRmtree _); [discriminate |].
        destruct (fs_fault env OpMkdir _); [discriminate | auto].
      * destruct (fs_fault env OpMkdir _); [discriminate | now apply Hcase].
    + intros _. exists w1. split; [exact Hev |].
      destruct (fs_fault env OpMkdtemp (mkdtemp_name env (fs w1)))
        as [k' |] eqn:Hmk.
      * exact (ensure_fallback_refused env w w1 k k' Htry Hmk).
      * apply ensure_fallback in Htry; [| exact Hmk].
        eexists. split; [exact Htry |]. simpl.
        split; [reflexivity |]. now rewrite <- app_assoc.
Qed.

(** X18. When the configured path is a non-empty directory that may be
    removed but not made again, the call with the defaults has removed the
    directory with its contents by the time it falls back. When
    [tempfile.mkdtemp] is not refused it returns a new temporary directory,
    and unless that directory got the very same path, the configured path
    is missing afterwards; when [tempfile.mkdtemp] is refused the call
    raises that error, and the configured path is missing. *)
Theorem ensure_prometheus_dir_removed_not_recreated
    (env : Env) (w : World) (x : string) (xs : list string) (k : os_error) :
  let p := absolute env (prometheus_multiproc_dir w) in
  let alt := mkdtemp_name env (dict_del p (fs w)) in
  dict_get p (fs w) = Some (Dir (x :: xs)) ->
  fs_fault env OpIterdir p = None ->
  fs_fault env OpRmtree p = None ->
  fs_fault env OpMkdir p = Some k ->
  exists r w',
    ensure_prometheus_dir env w = (r, w') /\
    count_rmtree p (trace w') = S (count_rmtree p (trace w)) /\
    match fs_fault env OpMkdtemp alt with
    | None =>
        r = Ok alt /\
        (alt <> p -> dict_get p (fs w') = None) /\
        dict_get alt (fs w') = Some (Dir [])
    | Some k' => r = Raise (OSError k') /\ dict_get p (fs w') = None
    end.
Proof.
  intros p alt Hget Hit Hrm Hmk.
  assert (Htry :
    ensure_prometheus_dir_try env (prometheus_multiproc_dir w) true w =
      (Raise (OSError k),
       {| fs := dict_del p (fs w);
          ports_in_use := ports_in_use w;
          prometheus_multiproc_dir := prometheus_multiproc_dir w;
          trace := trace w ++ [ EvRmtree p ] |})).
  { unfold ensure_prometheus_dir_try, path_exists, path_is_dir, any_iterdir,
      rmtree, mkdir. run_M. fold p.
    repeat (rewrite ?Hget, ?Hit, ?Hrm, ?Hmk; simpl). reflexivity. }
  assert (Hcount : forall tl,
            count_rmtree p ((trace w ++ [ EvRmtree p ]) ++ tl)
            = S (count_rmtree p (trace w) + count_rmtree p tl)).
  { intros tl. unfold count_rmtree. rewrite !filter_app, !length_app. simpl.
    rewrite String.eqb_refl. simpl. lia. }
  destruct (fs_fault env OpMkdtemp alt) as [k' |] eqn:Hmkd.
  - apply ensure_fallback_refused with (k' := k') in Htry; [| exact Hmkd].
    do 2 eexists. split; [exact Htry |]. cbn [fs trace].
    split; [| split; [reflexivity | apply dict_get_del_same]].
    rewrite <- (app_nil_r (trace w ++ [ EvRmtree p ])), Hcount.
    unfold count_rmtree. simpl. lia.
  - apply ensure_fallback in Htry; [| exact Hmkd].
    cbn [fs trace] in Htry. fold alt in Htry.
    do 2 eexists. split; [exact Htry |]. cbn [fs trace].
    split; [| split; [reflexivity | split]].
    + rewrite <- app_assoc, Hcount. unfold count_rmtree. simpl.
      destruct (String.eqb p alt); simpl; lia.
    + intros Hne. rewrite dict_get_set_other by congruence.
      apply dict_get_del_same.
    + apply dict_get_set_same.
Qed.

Lemma ensure_prometheus_dir_removed_not_recreated_witness :
  exists alt w',
    ensure_prometheus_dir Demo.mkdir_denied_env Demo.world_stale = (Ok alt, w') /\
    dict_get "/srv/metrics" (fs w') = None.
Proof.
  destruct (ensure_prometheus_dir_removed_not_recreated
              Demo.mkdir_denied_env Demo.world_stale "counter_1.db" []
              PermissionError eq_refl eq_refl eq_refl eq_refl)
    as [r [w' [Hens [_ Hcase]]]].
  simpl in Hcase. destruct Hcase as [-> [Hgone _]].
  do 2 eexists. split; [exact Hens |].
  apply Hgone. vm_compute. discriminate.
Defined.

(** ** The configured path and its absolute form *)


